(** * CSV-to-PostgreSQL extractor: a shallow embedding

    The repository holds two versions of one pipeline:
    - [data_extractor.py] (module [DataExtractor] below): sanitises column
      names with [strip]/[lower]/[isalnum], builds statements with
      [psycopg2.sql], loads with [COPY ... FROM STDIN];
    - [main.py] (module [Main] below): sanitises with
      [replace(' ', '_').lower()], builds statements with f-strings, loads
      with [executemany] in batches of 1000 rows.

    Both classes keep two mutable fields ([df], the connection) and talk to
    three outside parties: the HTTP server ([requests]), the CSV reader
    ([pandas]) and the store ([psycopg2]).  The embedding passes the
    extractor state and the state of the outside world explicitly; what the
    outside parties answer is collected in a record [Env].

    The repository also holds the Flask application that serves the loaded
    table, [app/app.py] (module [App] below); its views are functions of the
    request and of what the store answers. *)

From stdpp Require Import gmap strings list.
From Stdlib Require Import ZArith NArith Ascii String DecimalString Lia Bool.

Local Open Scope string_scope.
Local Open Scope list_scope.

(** ** Python [str] operations, on the ASCII range

    A Python [str] is a sequence of code points.  The embedding uses Rocq
    strings and gives the character predicates their Python meaning on the
    code points below 128; statements about "every name" carry the hypothesis
    [pure_ascii]. *)

Module PyStr.

Definition code (c : ascii) : N := N_of_ascii c.

Definition between (lo hi n : N) : bool := ((lo <=? n) && (n <=? hi))%N.


(** [str.isspace] on one ASCII character: TAB, LF, VT, FF, CR, the four
    separators FS, GS, RS, US, and the space. *)
Definition isspace (c : ascii) : bool :=
  between 9 13 (code c) || between 28 32 (code c).

Definition isdigit (c : ascii) : bool := between 48 57 (code c).
Definition isupper (c : ascii) : bool := between 65 90 (code c).
Definition islower (c : ascii) : bool := between 97 122 (code c).

(** [str.isalnum] on one ASCII character. *)
Definition isalnum (c : ascii) : bool := isdigit c || isupper c || islower c.

Definition lower_char (c : ascii) : ascii :=
  if isupper c then ascii_of_N (code c + 32) else c.

Fixpoint map_chars (f : ascii -> ascii) (s : string) : string :=
  match s with
  | EmptyString => EmptyString
  | String c s' => String (f c) (map_chars f s')
  end.

Fixpoint all_chars (p : ascii -> bool) (s : string) : bool :=
  match s with
  | EmptyString => true
  | String c s' => p c && all_chars p s'
  end.

Fixpoint any_char (p : ascii -> bool) (s : string) : bool :=
  match s with
  | EmptyString => false
  | String c s' => p c || any_char p s'
  end.


(** [str.lower]. *)
Definition lower (s : string) : string := map_chars lower_char s.

(** [str.lstrip], [str.rstrip], [str.strip] without argument. *)
Fixpoint lstrip (s : string) : string :=
  match s with
  | EmptyString => EmptyString
  | String c s' => if isspace c then lstrip s' else s
  end.

Fixpoint rstrip (s : string) : string :=
  match s with
  | EmptyString => EmptyString
  | String c s' =>
      match rstrip s' with
      | EmptyString => if isspace c then EmptyString else String c EmptyString
      | r => String c r
      end
  end.

Definition strip (s : string) : string := rstrip (lstrip s).

(** [str.replace(old, new)] for one-character [old] and [new]. *)
Definition replace_char (old new : ascii) (s : string) : string :=
  map_chars (fun c => if Ascii.eqb c old then new else c) s.

End PyStr.

(** ** Column-name sanitisation *)

(** [data_extractor.py], [_sanitize_columns], the body of the loop:
<<
    name = col.strip().lower()
    name = ''.join(c if c.isalnum() or c=='_' else '_' for c in name)
>> *)
Definition keep_or_underscore (c : ascii) : ascii :=
  if PyStr.isalnum c || Ascii.eqb c "_" then c else "_"%char.

Definition sanitize_name (col : string) : string :=
  PyStr.map_chars keep_or_underscore (PyStr.lower (PyStr.strip col)).

(** The sanitiser as the specification words it: lower-case, trim, replace. *)
Definition spec_sanitize (col : string) : string :=
  PyStr.map_chars keep_or_underscore (PyStr.strip (PyStr.lower col)).

(** [main.py], lines 122 and 168: [col.replace(' ', '_').lower()]. *)
Definition main_sanitize_name (col : string) : string :=
  PyStr.lower (PyStr.replace_char " " "_" col).

(** A character allowed in a sanitised identifier: lower-case letter, digit
    or underscore. *)
Definition ident_char (c : ascii) : bool :=
  PyStr.isdigit c || PyStr.islower c || Ascii.eqb c "_".

Definition is_identifier (s : string) : bool := PyStr.all_chars ident_char s.

(** Punctuation or white space other than the underscore, on the ASCII
    range: anything that is not a letter, a digit or the underscore. *)
Definition is_punct_or_space (c : ascii) : bool :=
  negb (PyStr.isalnum c || Ascii.eqb c "_").

(** ** pandas: cells, data frames and the inferred dtype

    [pd.read_csv] is library code.  The model keeps what the extractor relies
    on: every field of the CSV body is a text that the reader's tokenizer
    classifies, and the dtype of a column is decided from all its fields by
    the reader's cast order (int64, float64, bool, object) followed by the
    upcast of columns with missing values.  The classification of a field is
    part of the data ([kind]); integer literals that do not fit in 64 bits
    have no kind here, the model does not cover them. *)

Inductive Kind : Type :=
| KNa      (* empty field, or one of the reader's NA spellings *)
| KInt     (* accepted by the int64 parser *)
| KFloat   (* accepted by the float parser, not by the int64 parser *)
| KBool    (* one of the reader's true/false spellings *)
| KStr.    (* none of the above *)

Record Cell : Type := mkCell { text : string; kind : Kind }.

Definition is_na (k : Kind) : bool := match k with KNa => true | _ => false end.
Definition int_like (k : Kind) : bool :=
  match k with KInt | KNa => true | _ => false end.
Definition float_like (k : Kind) : bool :=
  match k with KInt | KFloat | KNa => true | _ => false end.
Definition bool_like (k : Kind) : bool :=
  match k with KBool | KNa => true | _ => false end.

(** The first dtype of the cast order that converts every field; missing
    values pass every conversion. *)
Definition convert_tokens (col : list Kind) : string :=
  if forallb int_like col then "int64"
  else if forallb float_like col then "float64"
  else if forallb bool_like col then "bool"
  else "object".

Definition na_count (col : list Kind) : nat := List.length (List.filter is_na col).

(** A converted column that has missing values cannot stay int64 or bool. *)
Definition maybe_upcast (dtype : string) (na : nat) : string :=
  if Nat.eqb na 0 then dtype
  else if String.eqb dtype "int64" then "float64"
  else if String.eqb dtype "bool" then "object"
  else dtype.

(** The dtype [read_csv] gives a column; a frame without rows has object
    columns. *)
Definition inferred_dtype (col : list Kind) : string :=
  match col with
  | [] => "object"
  | _ => maybe_upcast (convert_tokens col) (na_count col)
  end.

(** A data frame, row-major as [to_numpy] and [to_csv] read it; [read_csv]
    gives every row as many fields as there are columns. *)
Record DataFrame : Type := mkDataFrame {
  columns : list string;
  rows : list (list Cell)
}.

Definition set_columns (names : list string) (d : DataFrame) : DataFrame :=
  {| columns := names; rows := rows d |}.

(** The kinds of the fields of column [j]; a field missing from a short row
    reads as NA. *)
Definition column_kinds (d : DataFrame) (j : nat) : list Kind :=
  map (fun r => from_option kind KNa (r !! j)) (rows d).

(** [df.dtypes.items()]: the pairs (column name, str(dtype)), in column
    order. *)
Definition dtypes_items (d : DataFrame) : list (string * string) :=
  imap (fun j name => (name, inferred_dtype (column_kinds d j))) (columns d).

(** ** The map from dtypes to store types

    [type_map] is the dict of [data_extractor.py]; [main.py] builds the
    same entries in another order ([Main.type_mapping] below).  Both read
    the dict with [.get(str(dtype), 'TEXT')]. *)

Definition type_map : gmap string string :=
  {[ "int64" := "INTEGER";
     "float64" := "NUMERIC";
     "object" := "TEXT";
     "bool" := "BOOLEAN";
     "datetime64[ns]" := "TIMESTAMP" ]}.

Definition pg_type (dtype : string) : string :=
  default "TEXT" (type_map !! dtype).

(** The store type of a column, from the kinds of its fields. *)
Definition column_pg_type (col : list Kind) : string := pg_type (inferred_dtype col).

(** ** Statements and the store

    The store is PostgreSQL behind one [psycopg2] connection.  The model
    keeps the catalogue of tables as the last commit left it ([committed])
    and as the open transaction sees it ([pending]).  What the store itself
    decides (whether it accepts a table definition, whether it accepts a
    row) is read from [Env]. *)

(** A table name in a statement: [sql.Identifier(name)] is quoted and read
    as it is; a name spliced into the statement text ([main.py]) is folded
    to lower case by the store. *)
Inductive SqlName : Type :=
| Identifier (s : string)
| RawName (s : string).

Definition resolve (n : SqlName) : string :=
  match n with
  | Identifier s => s
  | RawName s => PyStr.lower s
  end.

Record ColumnDef : Type := mkColumnDef { cd_name : string; cd_type : string }.

(** [CREATE TABLE IF NOT EXISTS <table> (<columns>)]. *)
Record CreateStmt : Type := mkCreateStmt {
  ct_table : SqlName;
  ct_columns : list ColumnDef
}.

Definition id_column : ColumnDef :=
  {| cd_name := "id"; cd_type := "SERIAL PRIMARY KEY" |}.

Definition import_date_column : ColumnDef :=
  {| cd_name := "import_date"; cd_type := "TIMESTAMP DEFAULT CURRENT_TIMESTAMP" |}.

(** The statement both files build: [id] first, then the data columns,
    then [import_date]. *)
Definition create_table_stmt (table : SqlName) (data_cols : list ColumnDef) : CreateStmt :=
  {| ct_table := table;
     ct_columns := id_column :: data_cols ++ [import_date_column] |}.

Record Table : Type := mkTable {
  t_name : string;
  t_columns : list ColumnDef;
  t_rows : list (list Cell)
}.

Definition Catalog : Type := list Table.

Record Db : Type := mkDb { committed : Catalog; pending : Catalog }.

Definition commit (db : Db) : Db :=
  {| committed := pending db; pending := pending db |}.

Definition rollback (db : Db) : Db :=
  {| committed := committed db; pending := committed db |}.

Definition has_table (name : string) (cat : Catalog) : bool :=
  existsb (fun t => String.eqb (t_name t) name) cat.

Definition tables_named (name : string) (cat : Catalog) : list Table :=
  List.filter (fun t => String.eqb (t_name t) name) cat.

(** The rows the store holds for a table name. *)
Definition rows_of (name : string) (cat : Catalog) : list (list Cell) :=
  List.concat (map t_rows (tables_named name cat)).

Definition has_column (t : Table) (col : string) : bool :=
  existsb (fun c => String.eqb (cd_name c) col) (t_columns t).

(** A load statement names a table and the columns it supplies. *)
Definition load_target_ok (name : string) (cols : list string) (cat : Catalog) : bool :=
  existsb (fun t => String.eqb (t_name t) name && forallb (has_column t) cols) cat.

Fixpoint append_rows (name : string) (new : list (list Cell)) (cat : Catalog) : Catalog :=
  match cat with
  | [] => []
  | t :: rest =>
      if String.eqb (t_name t) name
      then {| t_name := t_name t; t_columns := t_columns t; t_rows := t_rows t ++ new |} :: rest
      else t :: append_rows name new rest
  end.

(** ** The outside world *)

Inductive RequestError : Type := Timeout | ConnectionError | OtherRequestError.

Inductive HttpOutcome : Type :=
| HttpRaises (e : RequestError)
| HttpResponse (status : Z) (body : string).

(** [Response.raise_for_status]: raises for the statuses 400 to 599. *)
Definition raises_for_status (status : Z) : bool :=
  ((400 <=? status) && (status <? 600))%Z.

Inductive CsvResult : Type :=
| Parsed (d : DataFrame)
| ParserError
| OtherCsvError.

Record Env : Type := mkEnv {
  (** [psycopg2.connect(...)] returns a connection ([true]) or raises. *)
  connect_ok : bool;
  (** [requests.get(url, timeout=...)]. *)
  http_get : string -> option nat -> HttpOutcome;
  (** [pd.read_csv(StringIO(text))]. *)
  read_csv : string -> CsvResult;
  (** The store's verdict on the definition of a table that does not exist. *)
  accepts_create : CreateStmt -> bool;
  (** The store's verdict on one row offered to a table. *)
  accepts_row : string -> list string -> list Cell -> bool;
  (** [connection.rollback()] returns ([true]) or raises, as it does on a
      connection that was lost. *)
  rollback_ok : bool
}.

(** [CREATE TABLE IF NOT EXISTS]: nothing happens when the table exists;
    [None] when the store raises. *)
Definition exec_create (env : Env) (stmt : CreateStmt) (cat : Catalog) : option Catalog :=
  let name := resolve (ct_table stmt) in
  if has_table name cat then Some cat
  else if accepts_create env stmt
       then Some (cat ++ [{| t_name := name; t_columns := ct_columns stmt; t_rows := [] |}])
       else None.

(** One row of [executemany], or the rows of one [COPY]: all of them are
    stored or the store raises. *)
Definition exec_load (env : Env) (table : SqlName) (cols : list string)
    (new : list (list Cell)) (cat : Catalog) : option Catalog :=
  let name := resolve table in
  if load_target_ok name cols cat && forallb (accepts_row env name cols) new
  then Some (append_rows name new cat)
  else None.

(** ** What a run leaves behind

    Every method appends to one trace: the calls it makes on the outside
    world and the lines it logs.  [ECall], [EReturn] and [ERaise] mark the
    entry into a method of the extractor and the way it is left (a value
    returned, an exception that escapes); [EUncaught] marks an exception
    that leaves [main].  The program prints nothing for the first three,
    they only say which methods ran. *)

Inductive Method : Type := MConnect | MFetch | MCreate | MLoad | MClose.

Inductive FetchFailure : Type := DownloadFailed | ParseFailed | UnexpectedFailure.

Inductive LogMsg : Type :=
| LConnected
| LConnectFailed
| LDownloading (url : string)
| LCsvLoaded (nrows ncols : nat)
| LColumns (names : list string)
| LFetchFailed (why : FetchFailure)
| LNothingToCreate
| LTableReady (table : string)
| LCreateFailed
| LNothingToLoad
| LBatchLoaded (batch_no n : nat)
| LRowsLoaded (n : nat) (table : string)
| LLoadFailed
| LClosed
| LDone
| LStepFailed (m : Method).

Inductive Level : Type := Info | Error.

Inductive Event : Type :=
| ECall (m : Method)
| EReturn (m : Method) (r : bool)
| ERaise (m : Method)
| EUncaught
| EPgConnect
| EHttpGet (url : string) (timeout : option nat)
| EExecute (stmt : CreateStmt)
| EExecuteMany (table : SqlName) (cols : list string) (n : nat)
| ECopy (table : SqlName) (cols : list string) (n : nat)
| ECommit
| ERollback
| EConnClose
| ELog (lvl : Level) (msg : LogMsg).

(** A [psycopg2] connection object; it is truthy. *)
Inductive Connection : Type := PgConnection.

(** How a method that returns a bool is left: with a value, or by an
    exception that no handler of the method catches. *)
Inductive Result : Type :=
| Returned (value : bool)
| Raised.

(** The outcome of a method: how it is left, the extractor and the store
    afterwards, the trace it produced. *)
Definition Outcome (E : Type) : Type := (Result * E * Db * list Event)%type.

(** The end of the [except] blocks of the methods that write to the store:
    after the error line, [rollback()] and [return False].  When the
    rollback itself raises, that exception leaves the method. *)
Definition rollback_and_fail {E : Type} (env : Env) (m : Method) (self : E) (db : Db)
    (before : list Event) : Outcome E :=
  if rollback_ok env
  then (Returned false, self, rollback db, before ++ [ERollback; EReturn m false])
  else (Raised, self, db, before ++ [ERollback; ERaise m]).

(** ** The process environment

    [os.environ] as a map from names to values; [os.getenv(key, default)]
    gives the value of a variable that is set, also an empty one, and the
    default otherwise. *)

Definition getenv (environ : gmap string string) (key fallback : string) : string :=
  default fallback (environ !! key).

(** The truth value of a Python [str]: the empty string is false. *)
Definition truthy (s : string) : bool := negb (String.eqb s "").

(** * [data_extractor.py] *)

Module DataExtractor.

Record Extractor : Type := mkExtractor {
  csv_url : string;
  table_name : string;
  df : option DataFrame;
  conn : option Connection
}.

(** [__init__]. *)
Definition init (url table : string) : Extractor :=
  {| csv_url := url; table_name := table; df := None; conn := None |}.

Definition set_df (d : DataFrame) (self : Extractor) : Extractor :=
  {| csv_url := csv_url self; table_name := table_name self;
     df := Some d; conn := conn self |}.

Definition set_conn (c : Connection) (self : Extractor) : Extractor :=
  {| csv_url := csv_url self; table_name := table_name self;
     df := df self; conn := Some c |}.

(** [_load_env_config]: the keyword arguments for [psycopg2.connect]. *)
Definition _load_env_config (environ : gmap string string) : gmap string string :=
  let defaults : gmap string string :=
    {[ "host" := getenv environ "DB_HOST" "localhost";
       "port" := getenv environ "DB_PORT" "5432";
       "database" := getenv environ "DB_NAME" "postgres";
       "user" := getenv environ "DB_USER" "postgres";
       "password" := getenv environ "DB_PASSWORD" "" ]} in
  match environ !! "DATABASE_URL" with
  | Some db_url => if truthy db_url then {[ "dsn" := db_url ]} else defaults
  | None => defaults
  end.

(** [connect]. *)
Definition connect (env : Env) (self : Extractor) (db : Db) : Outcome Extractor :=
  if connect_ok env
  then (Returned true, set_conn PgConnection self, db,
        [ECall MConnect; EPgConnect; ELog Info LConnected; EReturn MConnect true])
  else (Returned false, self, db,
        [ECall MConnect; EPgConnect; ELog Error LConnectFailed; EReturn MConnect false]).

(** The request [fetch_csv] issues: [requests.get(self.csv_url, timeout=30)]. *)
Definition fetch_timeout : option nat := Some 30.

(** [fetch_csv]. *)
Definition fetch_csv (env : Env) (self : Extractor) (db : Db) : Outcome Extractor :=
  let url := csv_url self in
  let pre := [ECall MFetch; ELog Info (LDownloading url); EHttpGet url fetch_timeout] in
  let failed why :=
    (Returned false, self, db,
     pre ++ [ELog Error (LFetchFailed why); EReturn MFetch false]) in
  match http_get env url fetch_timeout with
  | HttpRaises _ => failed DownloadFailed
  | HttpResponse status body =>
      if raises_for_status status then failed DownloadFailed
      else match read_csv env body with
           | Parsed d =>
               (Returned true, set_df d self, db,
                pre ++ [ELog Info (LCsvLoaded (List.length (rows d)) (List.length (columns d)));
                        EReturn MFetch true])
           | ParserError => failed ParseFailed
           | OtherCsvError => failed UnexpectedFailure
           end
  end.

(** [_sanitize_columns]: the names of the frame are replaced in place. *)
Definition _sanitize_columns (d : DataFrame) : DataFrame :=
  set_columns (map sanitize_name (columns d)) d.

(** The column definitions of [create_table], one per item of [df.dtypes]. *)
Definition cols_defs (d : DataFrame) : list ColumnDef :=
  map (fun item => {| cd_name := fst item; cd_type := pg_type (snd item) |})
      (dtypes_items d).

(** [create_table]. *)
Definition create_table (env : Env) (self : Extractor) (db : Db) : Outcome Extractor :=
  match conn self, df self with
  | Some _, Some d =>
      let d' := _sanitize_columns d in
      let self' := set_df d' self in
      let stmt := create_table_stmt (Identifier (table_name self)) (cols_defs d') in
      match exec_create env stmt (pending db) with
      | Some cat =>
          (Returned true, self', commit {| committed := committed db; pending := cat |},
           [ECall MCreate; EExecute stmt; ECommit;
            ELog Info (LTableReady (table_name self)); EReturn MCreate true])
      | None =>
          rollback_and_fail env MCreate self' db
            [ECall MCreate; EExecute stmt; ELog Error LCreateFailed]
      end
  | _, _ =>
      (Returned false, self, db,
       [ECall MCreate; ELog Error LNothingToCreate; EReturn MCreate false])
  end.

(** [bulk_insert]: one [COPY table(cols) FROM STDIN] with all the rows. *)
Definition bulk_insert (env : Env) (self : Extractor) (db : Db) : Outcome Extractor :=
  match conn self, df self with
  | Some _, Some d =>
      let d' := _sanitize_columns d in
      let self' := set_df d' self in
      let table := Identifier (table_name self) in
      let cols := columns d' in
      let copy := ECopy table cols (List.length (rows d')) in
      match exec_load env table cols (rows d') (pending db) with
      | Some cat =>
          (Returned true, self', commit {| committed := committed db; pending := cat |},
           [ECall MLoad; copy; ECommit;
            ELog Info (LRowsLoaded (List.length (rows d')) (table_name self));
            EReturn MLoad true])
      | None =>
          rollback_and_fail env MLoad self' db [ECall MLoad; copy; ELog Error LLoadFailed]
      end
  | _, _ =>
      (Returned false, self, db,
       [ECall MLoad; ELog Error LNothingToLoad; EReturn MLoad false])
  end.

(** [close]. *)
Definition close (self : Extractor) : list Event :=
  match conn self with
  | Some _ => [ECall MClose; EConnClose; ELog Info LClosed]
  | None => [ECall MClose]
  end.

(** The body of the [try] block of [main]; the flag tells whether an
    exception leaves the block. *)
Definition main_try (env : Env) (extractor : Extractor) (db : Db)
    : bool * Extractor * Db * list Event :=
  let '(r1, extractor, db, ev1) := fetch_csv env extractor db in
  match r1 with
  | Raised => (true, extractor, db, ev1)
  | Returned false => (false, extractor, db, ev1)
  | Returned true =>
      let '(r2, extractor, db, ev2) := create_table env extractor db in
      match r2 with
      | Raised => (true, extractor, db, ev1 ++ ev2)
      | Returned false => (false, extractor, db, ev1 ++ ev2)
      | Returned true =>
          let '(r3, extractor, db, ev3) := bulk_insert env extractor db in
          match r3 with
          | Raised => (true, extractor, db, ev1 ++ ev2 ++ ev3)
          | Returned false => (false, extractor, db, ev1 ++ ev2 ++ ev3)
          | Returned true => (false, extractor, db, ev1 ++ ev2 ++ ev3 ++ [ELog Info LDone])
          end
      end
  end.

(** [main]: [csv_url] and [table] are what the environment variables
    [CSV_URL] and [TARGET_TABLE] (or their defaults) give.  The [finally]
    clause runs [close] however the [try] block is left; an exception that
    left the block goes on after it. *)
Definition main (env : Env) (csv_url table : string) (db : Db) : Db * list Event :=
  let extractor := init csv_url table in
  let '(r0, extractor, db, ev0) := connect env extractor db in
  match r0 with
  | Returned true =>
      let '(raised, extractor, db, ev) := main_try env extractor db in
      (db, ev0 ++ ev ++ close extractor ++ (if raised then [EUncaught] else []))
  | Returned false => (db, ev0)
  | Raised => (db, ev0 ++ [EUncaught])
  end.

(** The two variables [main] reads, with their defaults. *)
Definition default_csv_url : string :=
  "https://ourworldindata.org/grapher/crude-birth-rate.csv?v=1&csvType=full&useColumnShortNames=false".

Definition default_table : string := "crude_birth_rate".

(** [main] in a process environment: [CSV_URL] and [TARGET_TABLE] are read
    with [os.getenv]. *)
Definition main_in (environ : gmap string string) (env : Env) (db : Db)
    : Db * list Event :=
  main env (getenv environ "CSV_URL" default_csv_url)
       (getenv environ "TARGET_TABLE" default_table) db.

End DataExtractor.

(** * [main.py] *)

Module Main.

Record Extractor : Type := mkExtractor {
  csv_url : string;
  db_config : gmap string string;
  db_connection : option Connection;
  df : option DataFrame
}.

(** [__init__]. *)
Definition init (url : string) (config : gmap string string) : Extractor :=
  {| csv_url := url; db_config := config; db_connection := None; df := None |}.

Definition set_df (d : DataFrame) (self : Extractor) : Extractor :=
  {| csv_url := csv_url self; db_config := db_config self;
     db_connection := db_connection self; df := Some d |}.

Definition set_conn (c : Connection) (self : Extractor) : Extractor :=
  {| csv_url := csv_url self; db_config := db_config self;
     db_connection := Some c; df := df self |}.

(** [connect_to_database]. *)
Definition connect_to_database (env : Env) (self : Extractor) (db : Db) : Outcome Extractor :=
  if connect_ok env
  then (Returned true, set_conn PgConnection self, db,
        [ECall MConnect; EPgConnect; ELog Info LConnected; EReturn MConnect true])
  else (Returned false, self, db,
        [ECall MConnect; EPgConnect; ELog Error LConnectFailed; EReturn MConnect false]).

(** The request [fetch_csv_data] issues: [requests.get(self.csv_url)], no
    timeout argument. *)
Definition fetch_timeout : option nat := None.

(** [fetch_csv_data]. *)
Definition fetch_csv_data (env : Env) (self : Extractor) (db : Db) : Outcome Extractor :=
  let url := csv_url self in
  let pre := [ECall MFetch; ELog Info (LDownloading url); EHttpGet url fetch_timeout] in
  let failed why :=
    (Returned false, self, db,
     pre ++ [ELog Error (LFetchFailed why); EReturn MFetch false]) in
  match http_get env url fetch_timeout with
  | HttpRaises _ => failed DownloadFailed
  | HttpResponse status body =>
      if raises_for_status status then failed DownloadFailed
      else match read_csv env body with
           | Parsed d =>
               (Returned true, set_df d self, db,
                pre ++ [ELog Info (LCsvLoaded (List.length (rows d)) (List.length (columns d)));
                        ELog Info (LColumns (columns d));
                        EReturn MFetch true])
           | ParserError => failed ParseFailed
           | OtherCsvError => failed UnexpectedFailure
           end
  end.

(** [str(self.df[col].dtype)]: the column is looked up by label; when
    several columns carry the label, [df[col]] is a frame, it has no
    [dtype] and the lookup raises ([None]). *)
Definition label_dtype (d : DataFrame) (col : string) : option string :=
  match List.filter (fun item => String.eqb (fst item) col) (dtypes_items d) with
  | [item] => Some (snd item)
  | _ => None
  end.

Definition type_mapping : gmap string string :=
  {[ "int64" := "INTEGER";
     "float64" := "NUMERIC";
     "object" := "TEXT";
     "datetime64[ns]" := "TIMESTAMP";
     "bool" := "BOOLEAN" ]}.

(** The loop of [create_table_if_not_exists] over [self.df.columns]. *)
Definition columns_definitions (d : DataFrame) : option (list ColumnDef) :=
  mapM (fun col =>
          dtype ← label_dtype d col;
          Some {| cd_name := main_sanitize_name col;
                  cd_type := default "TEXT" (type_mapping !! dtype) |})
       (columns d).

(** [create_table_if_not_exists]. *)
Definition create_table_if_not_exists (env : Env) (table_name : string)
    (self : Extractor) (db : Db) : Outcome Extractor :=
  match db_connection self, df self with
  | Some _, Some d =>
      match columns_definitions d with
      | Some defs =>
          let stmt := create_table_stmt (RawName table_name) defs in
          match exec_create env stmt (pending db) with
          | Some cat =>
              (Returned true, self, commit {| committed := committed db; pending := cat |},
               [ECall MCreate; EExecute stmt; ECommit;
                ELog Info (LTableReady table_name); EReturn MCreate true])
          | None =>
              rollback_and_fail env MCreate self db
                [ECall MCreate; EExecute stmt; ELog Error LCreateFailed]
          end
      | None =>
          rollback_and_fail env MCreate self db [ECall MCreate; ELog Error LCreateFailed]
      end
  | _, _ =>
      (Returned false, self, db,
       [ECall MCreate; ELog Error LNothingToCreate; EReturn MCreate false])
  end.

Definition batch_size : nat := 1000.

(** [range(0, stop, step)] for a positive [step]. *)
Definition range_step (stop step : nat) : list nat :=
  map (fun k => k * step) (seq 0 (Nat.div (stop + step - 1) step)).

(** [values[i:j]]. *)
Definition slice {A : Type} (i j : nat) (values : list A) : list A :=
  firstn (j - i) (skipn i values).

(** [cursor.executemany(insert_query, batch)]: the statement runs once per
    row, in order; the first row the store refuses raises. *)
Fixpoint executemany (env : Env) (table : SqlName) (cols : list string)
    (batch : list (list Cell)) (cat : Catalog) : option Catalog :=
  match batch with
  | [] => Some cat
  | row :: rest =>
      match exec_load env table cols [row] cat with
      | Some cat' => executemany env table cols rest cat'
      | None => None
      end
  end.

(** The batch loop of [save_to_database]; [starts] are the values of [i]
    still to come.  [false]: an exception left the loop. *)
Fixpoint insert_batches (env : Env) (table : SqlName) (cols : list string)
    (values : list (list Cell)) (starts : list nat) (db : Db)
    : bool * Db * list Event :=
  match starts with
  | [] => (true, db, [])
  | i :: rest =>
      let batch := slice i (i + batch_size) values in
      let call := EExecuteMany table cols (List.length batch) in
      match executemany env table cols batch (pending db) with
      | Some cat =>
          let db' := commit {| committed := committed db; pending := cat |} in
          let '(ok, db'', ev) := insert_batches env table cols values rest db' in
          (ok, db'',
           [call; ECommit; ELog Info (LBatchLoaded (i / batch_size + 1) (List.length batch))]
           ++ ev)
      | None => (false, db, [call])
      end
  end.

(** [save_to_database]. *)
Definition save_to_database (env : Env) (table_name : string)
    (self : Extractor) (db : Db) : Outcome Extractor :=
  match db_connection self, df self with
  | Some _, Some d =>
      let d' := set_columns (map main_sanitize_name (columns d)) d in
      let self' := set_df d' self in
      let cols := columns d' in
      let values := rows d' in
      let '(ok, db', ev) :=
        insert_batches env (RawName table_name) cols values
                       (range_step (List.length values) batch_size) db in
      if ok
      then (Returned true, self', db',
            [ECall MLoad] ++ ev ++
            [ELog Info (LRowsLoaded (List.length values) table_name); EReturn MLoad true])
      else rollback_and_fail env MLoad self' db'
             ([ECall MLoad] ++ ev ++ [ELog Error LLoadFailed])
  | _, _ =>
      (Returned false, self, db,
       [ECall MLoad; ELog Error LNothingToLoad; EReturn MLoad false])
  end.

(** [close_connection]. *)
Definition close_connection (self : Extractor) : list Event :=
  match db_connection self with
  | Some _ => [ECall MClose; EConnClose; ELog Info LClosed]
  | None => [ECall MClose]
  end.

(** The body of the [try] block of [main]; the flag tells whether an
    exception leaves the block. *)
Definition main_try (env : Env) (table_name : string) (extractor : Extractor) (db : Db)
    : bool * Extractor * Db * list Event :=
  let '(r1, extractor, db, ev1) := fetch_csv_data env extractor db in
  match r1 with
  | Raised => (true, extractor, db, ev1)
  | Returned false => (false, extractor, db, ev1 ++ [ELog Error (LStepFailed MFetch)])
  | Returned true =>
      let '(r2, extractor, db, ev2) :=
        create_table_if_not_exists env table_name extractor db in
      match r2 with
      | Raised => (true, extractor, db, ev1 ++ ev2)
      | Returned false =>
          (false, extractor, db, ev1 ++ ev2 ++ [ELog Error (LStepFailed MCreate)])
      | Returned true =>
          let '(r3, extractor, db, ev3) := save_to_database env table_name extractor db in
          match r3 with
          | Raised => (true, extractor, db, ev1 ++ ev2 ++ ev3)
          | Returned false =>
              (false, extractor, db, ev1 ++ ev2 ++ ev3 ++ [ELog Error (LStepFailed MLoad)])
          | Returned true => (false, extractor, db, ev1 ++ ev2 ++ ev3 ++ [ELog Info LDone])
          end
      end
  end.

(** [main]; the source fixes [csv_url], [db_config] and [table_name].  The
    [finally] clause runs [close_connection] however the [try] block is
    left; an exception that left the block goes on after it. *)
Definition main (env : Env) (csv_url : string) (config : gmap string string)
    (table_name : string) (db : Db) : Db * list Event :=
  let extractor := init csv_url config in
  let '(r0, extractor, db, ev0) := connect_to_database env extractor db in
  match r0 with
  | Returned true =>
      let '(raised, extractor, db, ev) := main_try env table_name extractor db in
      (db, ev0 ++ ev ++ close_connection extractor
           ++ (if raised then [EUncaught] else []))
  | Returned false => (db, ev0 ++ [ELog Error (LStepFailed MConnect)])
  | Raised => (db, ev0 ++ [EUncaught])
  end.

End Main.

(** * [app/app.py]

    The Flask application that serves the table [crude_birth_rate].  A view
    is a function of the request and of what the store answers; it gives the
    response (status and JSON body) and the calls it made on the
    connection.  The store is read only; the model takes it that no other
    session writes to the table while a view runs. *)

Module App.

(** A row as the [RealDictCursor] gives it.  The views read three columns;
    each is kept as the [str()] of its value, [None] for NULL.  [others]
    stands for the remaining columns. *)
Record Row : Type := mkRow {
  entity : option string;
  code : option string;
  year : option string;
  others : list string
}.

(** An argument of the query string, by what [int()] makes of its text. *)
Inductive Arg : Type :=
| IntArg (z : Z)
| TextArg (raw : string).

(** [request.args.get(key, default, type=int)]: the default when the key
    is missing and when [int()] raises on its value. *)
Definition args_get_int (args : gmap string Arg) (key : string) (fallback : Z) : Z :=
  match args !! key with
  | Some (IntArg z) => z
  | _ => fallback
  end.

Record Store : Type := mkStore {
  (** [psycopg2.connect(...)] returns a connection ([true]) or raises. *)
  accepts_connection : bool;
  (** The rows of [crude_birth_rate]; [None] when the relation does not
      exist. *)
  table : option (list Row);
  (** The order in which the store gives rows for [ORDER BY entity, year]
      and for [ORDER BY year]. *)
  by_entity_year : list Row -> list Row;
  by_year : list Row -> list Row
}.

(** The largest value of the type the store reads [LIMIT] and [OFFSET]
    in. *)
Definition int8_max : Z := 9223372036854775807.

Definition fits (n : Z) : bool := (0 <=? n)%Z && (n <=? int8_max)%Z.

(** [SELECT * FROM crude_birth_rate ORDER BY entity, year LIMIT l OFFSET o];
    [None] when the store raises: no relation, a negative count, a count
    out of range. *)
Definition select_page (st : Store) (limit offset : Z) : option (list Row) :=
  match table st with
  | Some rows =>
      if fits limit && fits offset
      then Some (firstn (Z.to_nat limit) (skipn (Z.to_nat offset) (by_entity_year st rows)))
      else None
  | None => None
  end.

(** [SELECT COUNT( * ) FROM crude_birth_rate]. *)
Definition select_count (st : Store) : option Z :=
  match table st with
  | Some rows => Some (Z.of_nat (List.length rows))
  | None => None
  end.

Definition has_code (c : string) (r : Row) : bool :=
  match code r with
  | Some c' => String.eqb c' c
  | None => false
  end.

(** [SELECT * FROM crude_birth_rate WHERE code = c ORDER BY year]. *)
Definition select_country (st : Store) (c : string) : option (list Row) :=
  match table st with
  | Some rows => Some (by_year st (List.filter (has_code c) rows))
  | None => None
  end.

Inductive Sql : Type :=
| SelectPage (limit offset : Z)
| SelectCount
| SelectCountry (c : string).

Inductive Event : Type :=
| Connect
| Execute (q : Sql)
| Close.

Inductive Body : Type :=
| PageBody (page limit total total_pages : Z) (data : list Row)
| CountryBody (country : option string) (c : string) (year_range : string)
              (data_points : nat) (data : list Row)
| HealthBody (healthy : bool)
| NotFoundBody   (* the body of the 404 that [get_country_data] returns *)
| ErrorBody      (* the body an [except] clause of a view returns *)
| UnhandledBody. (* an exception left the view: the answer is Flask's *)

Definition Response : Type := (Z * Body)%type.

(** [get_db_connection]: the arguments of [psycopg2.connect], by name; the
    URL is the parameter [dsn]. *)
Definition get_db_connection (environ : gmap string string) : gmap string string :=
  match environ !! "DATABASE_URL" with
  | Some db_url =>
      if truthy db_url then {[ "dsn" := db_url ]}
      else {[ "host" := getenv environ "DB_HOST" "localhost";
              "port" := getenv environ "DB_PORT" "5432";
              "database" := getenv environ "DB_NAME" "postgres";
              "user" := getenv environ "DB_USER" "postgres";
              "password" := getenv environ "DB_PASSWORD" "" ]}
  | None =>
      {[ "host" := getenv environ "DB_HOST" "localhost";
         "port" := getenv environ "DB_PORT" "5432";
         "database" := getenv environ "DB_NAME" "postgres";
         "user" := getenv environ "DB_USER" "postgres";
         "password" := getenv environ "DB_PASSWORD" "" ]}
  end.

(** [get_birth_rates].  The connection is opened before the [try]: when
    that raises, no handler of the view catches it.  [//] raises for a
    divisor of 0. *)
Definition get_birth_rates (st : Store) (args : gmap string Arg) : Response * list Event :=
  let page := args_get_int args "page" 1 in
  let limit := args_get_int args "limit" 100 in
  let offset := ((page - 1) * limit)%Z in
  if accepts_connection st
  then
    match select_page st limit offset with
    | Some results =>
        match select_count st with
        | Some total =>
            if (limit =? 0)%Z
            then ((500%Z, ErrorBody),
                  [Connect; Execute (SelectPage limit offset); Execute SelectCount; Close])
            else ((200%Z, PageBody page limit total ((total + limit - 1) / limit) results),
                  [Connect; Execute (SelectPage limit offset); Execute SelectCount; Close])
        | None =>
            ((500%Z, ErrorBody),
             [Connect; Execute (SelectPage limit offset); Execute SelectCount; Close])
        end
    | None => ((500%Z, ErrorBody), [Connect; Execute (SelectPage limit offset); Close])
    end
  else ((500%Z, UnhandledBody), [Connect]).

(** The text an f-string puts for a value of a column. *)
Definition fmt (v : option string) : string := default "None" v.

(** [get_country_data]. *)
Definition get_country_data (st : Store) (c : string) : Response * list Event :=
  if accepts_connection st
  then
    match select_country st c with
    | Some [] => ((404%Z, NotFoundBody), [Connect; Execute (SelectCountry c); Close])
    | Some (first :: rest) =>
        let results := first :: rest in
        let year_min := year first in
        let year_max := year (List.last results first) in
        ((200%Z, CountryBody (entity first) c (fmt year_min +:+ "-" +:+ fmt year_max)
                   (List.length results) results),
         [Connect; Execute (SelectCountry c); Close])
    | None => ((500%Z, ErrorBody), [Connect; Execute (SelectCountry c); Close])
    end
  else ((500%Z, UnhandledBody), [Connect]).

(** [health_check]: here the connection is opened inside the [try]. *)
Definition health_check (st : Store) : Response * list Event :=
  if accepts_connection st
  then ((200%Z, HealthBody true), [Connect; Close])
  else ((500%Z, HealthBody false), [Connect]).

(** The rows a response carries. *)
Definition data_of (r : Response) : list Row :=
  match snd r with
  | PageBody _ _ _ _ data => data
  | CountryBody _ _ _ _ data => data
  | _ => []
  end.

Definition is_close (e : Event) : bool := match e with Close => true | _ => false end.
Definition is_connect (e : Event) : bool := match e with Connect => true | _ => false end.

End App.

(** * The rules the code is compared with *)





(** The frame of the specification's end-to-end example. *)
Definition owid_frame : DataFrame :=
  {| columns := ["entity"; "code"; "year"; "rate"];
     rows := [ [mkCell "World" KStr; mkCell "OWID_WRL" KStr; mkCell "2000" KInt; mkCell "21.5" KFloat];
               [mkCell "World" KStr; mkCell "OWID_WRL" KStr; mkCell "2001" KInt; mkCell "21.0" KFloat] ] |}.

(** A frame with the header of the specification's sanitisation example. *)
Definition birth_rate_frame : DataFrame :=
  {| columns := ["Entity"; "Year"; "Crude Birth Rate (per 1,000 people)"];
     rows := [ [mkCell "World" KStr; mkCell "2000" KInt; mkCell "21.5" KFloat] ] |}.

(** Projections of an outcome. *)
Definition result_of {E : Type} (o : Outcome E) : Result := fst (fst (fst o)).
Definition self_of {E : Type} (o : Outcome E) : E := snd (fst (fst o)).
Definition db_of {E : Type} (o : Outcome E) : Db := snd (fst o).
Definition trace_of {E : Type} (o : Outcome E) : list Event := snd o.


(** The events of the batch loop of [main.py]: the [executemany] calls on
    one table and one column list, commits, and the lines for the batches. *)
Definition is_batch_event (table : SqlName) (cols : list string) (e : Event) : Prop :=
  match e with
  | EExecuteMany t c _ => t = table /\ c = cols
  | ECommit => True
  | ELog Info (LBatchLoaded _ _) => True
  | _ => False
  end.

(** The marks of a trace: which methods were entered, what they returned,
    and the calls of [close] on the connection. *)
Definition is_mark (e : Event) : bool :=
  match e with
  | ECall _ | EReturn _ _ | ERaise _ | EUncaught | EConnClose => true
  | _ => false
  end.

Definition marks (trace : list Event) : list Event := List.filter is_mark trace.

Definition is_conn_close (e : Event) : bool :=
  match e with EConnClose => true | _ => false end.

(** How often the connection was closed. *)
Definition closes (trace : list Event) : nat :=
  List.length (List.filter is_conn_close trace).

(** The HTTP requests of a trace: URL and timeout. *)
Fixpoint http_requests (trace : list Event) : list (string * option nat) :=
  match trace with
  | [] => []
  | EHttpGet url timeout :: rest => (url, timeout) :: http_requests rest
  | _ :: rest => http_requests rest
  end.


(** The mark a method leaves when it ends. *)
Definition end_mark (m : Method) (r : Result) : Event :=
  match r with
  | Returned b => EReturn m b
  | Raised => ERaise m
  end.

Definition goes_on (r : Result) : bool :=
  match r with Returned true => true | _ => false end.

Definition escapes (r : Result) : bool :=
  match r with Raised => true | _ => false end.

(** The marks of a run in which [connect], [fetch], [create] and [load] end
    as given ([connect] and [fetch] catch every exception and always
    return): a method runs only when every method before it returned
    [True]; [close] runs, and closes the connection, exactly when [connect]
    returned [True], also when an exception leaves [create] or [load]; that
    exception then leaves [main]. *)
Definition marks_of_run (connect fetch : bool) (create load : Result) : list Event :=
  [ECall MConnect; EReturn MConnect connect]
  ++ (if connect
      then [ECall MFetch; EReturn MFetch fetch]
           ++ (if fetch
               then [ECall MCreate; end_mark MCreate create]
                    ++ (if goes_on create then [ECall MLoad; end_mark MLoad load] else [])
               else [])
           ++ [ECall MClose; EConnClose]
           ++ (if fetch && (escapes create || goes_on create && escapes load)
               then [EUncaught] else [])
      else []).

Definition is_release (e : Event) : bool :=
  match e with
  | ECall MClose | EConnClose | EUncaught => true
  | _ => false
  end.

(** After a method returned [False] or raised, only the release of the
    connection follows (and the exception, when there is one, goes on). *)
Fixpoint no_step_after_failure (ms : list Event) : bool :=
  match ms with
  | [] => true
  | EReturn _ false :: rest => forallb is_release rest
  | ERaise _ :: rest => forallb is_release rest
  | _ :: rest => no_step_after_failure rest
  end.



(** A store with nothing uncommitted. *)
Definition clean (cat : Catalog) : Db := {| committed := cat; pending := cat |}.

(** ** Sample runs *)

Definition nl : string := String (ascii_of_nat 10) EmptyString.

Definition owid_url : string :=
  "https://ourworldindata.org/grapher/crude-birth-rate.csv?v=1&csvType=full&useColumnShortNames=false".

Definition owid_body : string :=
  "entity,code,year,rate" +:+ nl +:+ "World,OWID_WRL,2000,21.5" +:+ nl
  +:+ "World,OWID_WRL,2001,21.0" +:+ nl.

(** The reader on the one body used in the samples. *)
Definition sample_read_csv (body : string) : CsvResult :=
  if String.eqb body owid_body then Parsed owid_frame else OtherCsvError.

(** A world where everything works: the server answers 200 with the sample
    body, the store accepts every definition and every row. *)
Definition friendly_env : Env :=
  {| connect_ok := true;
     http_get := fun _ _ => HttpResponse 200 owid_body;
     read_csv := sample_read_csv;
     accepts_create := fun _ => true;
     accepts_row := fun _ _ _ => true;
     rollback_ok := true |}.

(** The same world, but the server answers with status [status]. *)
Definition env_with_status (status : Z) : Env :=
  {| connect_ok := true;
     http_get := fun _ _ => HttpResponse status owid_body;
     read_csv := sample_read_csv;
     accepts_create := fun _ => true;
     accepts_row := fun _ _ _ => true;
     rollback_ok := true |}.

(** The same world, but the host cannot be reached. *)
Definition env_unreachable : Env :=
  {| connect_ok := true;
     http_get := fun _ _ => HttpRaises ConnectionError;
     read_csv := sample_read_csv;
     accepts_create := fun _ => true;
     accepts_row := fun _ _ _ => true;
     rollback_ok := true |}.

(** A world where the connection is lost after the fetch: the store
    executes nothing any more and the rollback raises. *)
Definition env_connection_lost : Env :=
  {| connect_ok := true;
     http_get := fun _ _ => HttpResponse 200 owid_body;
     read_csv := sample_read_csv;
     accepts_create := fun _ => false;
     accepts_row := fun _ _ _ => false;
     rollback_ok := false |}.

Definition empty_db : Db := {| committed := []; pending := [] |}.


Definition main_config : gmap string string :=
  {[ "type" := "postgresql"; "host" := "localhost"; "port" := "5432";
     "database" := "mi_base_datos_transmision"; "user" := "postgres";
     "password" := "12345" ]}.








(** ** Notions for the further properties *)

(** The batches [save_to_database] cuts the rows into: [values[i:i+1000]]
    for the values of [i] that [range(0, len(values), 1000)] runs through. *)
Definition batches {A : Type} (values : list A) : list (list A) :=
  map (fun i => Main.slice i (i + Main.batch_size) values)
      (Main.range_step (List.length values) Main.batch_size).






(** A frame in which two columns carry the label [year]. *)
Definition twin_frame : DataFrame :=
  {| columns := ["year"; "rate"; "year"];
     rows := [ [mkCell "2000" KInt; mkCell "21.5" KFloat; mkCell "2001" KInt] ] |}.

Definition twin_main : Main.Extractor :=
  Main.set_df twin_frame (Main.set_conn PgConnection (Main.init owid_url main_config)).

(** A statement was sent to the store to be executed. *)
Definition is_store_call (e : Event) : bool :=
  match e with
  | EExecute _ | EExecuteMany _ _ _ | ECopy _ _ _ | ECommit => true
  | _ => false
  end.




(** A column name made of ASCII letters, digits, underscores and single
    blanks inside, with no white space at either end. *)
Definition plain_char (c : ascii) : bool :=
  PyStr.isalnum c || Ascii.eqb c "_" || Ascii.eqb c " ".

Definition plain_name (s : string) : bool :=
  PyStr.all_chars plain_char s && String.eqb (PyStr.strip s) s.

(** The five keyword arguments of [psycopg2.connect] with the variable
    each is read from and its default. *)
Definition connection_parameters : list (string * string * string) :=
  [ ("host", "DB_HOST", "localhost");
    ("port", "DB_PORT", "5432");
    ("database", "DB_NAME", "postgres");
    ("user", "DB_USER", "postgres");
    ("password", "DB_PASSWORD", "") ].





(** A store for the application: three rows, given in the order they are
    kept in. *)
Definition sample_rows : list App.Row :=
  [ App.mkRow (Some "Chile") (Some "CHL") (Some "2000") ["15.9"];
    App.mkRow (Some "Chile") (Some "CHL") (Some "2001") ["15.6"];
    App.mkRow (Some "World") None (Some "2000") ["21.5"] ].

Definition sample_store : App.Store :=
  {| App.accepts_connection := true;
     App.table := Some sample_rows;
     App.by_entity_year := fun rows => rows;
     App.by_year := fun rows => rows |}.

(** * Properties *)

(** ** Characters and strings *)

Lemma map_chars_map_chars (f g : ascii -> ascii) (s : string) :
  PyStr.map_chars f (PyStr.map_chars g s) = PyStr.map_chars (fun c => f (g c)) s.
Proof. induction s as [|c s IH]; simpl; [reflexivity | now rewrite IH]. Qed.

Lemma map_chars_id_on (p : ascii -> bool) (f : ascii -> ascii) (s : string) :
  (forall c, p c = true -> f c = c) ->
  PyStr.all_chars p s = true -> PyStr.map_chars f s = s.
Proof.
  intros Hf. induction s as [|c s IH]; simpl; [reflexivity |].
  intros [Hc Hs]%andb_prop. now rewrite (Hf c Hc), IH.
Qed.

Lemma all_chars_map_chars (p : ascii -> bool) (f : ascii -> ascii) (s : string) :
  (forall c, p (f c) = true) -> PyStr.all_chars p (PyStr.map_chars f s) = true.
Proof. intros Hp. induction s as [|c s IH]; simpl; [reflexivity | now rewrite Hp, IH]. Qed.

Lemma all_chars_impl (p q : ascii -> bool) (s : string) :
  (forall c, p c = true -> q c = true) ->
  PyStr.all_chars p s = true -> PyStr.all_chars q s = true.
Proof.
  intros Hpq. induction s as [|c s IH]; simpl; [reflexivity |].
  intros [Hc Hs]%andb_prop. now rewrite (Hpq c Hc), IH.
Qed.

(** Every fact about one character is settled by running through the 256
    characters. *)
Lemma for_all_chars (p : ascii -> bool) :
  forallb p (map ascii_of_nat (seq 0 256)) = true -> forall c, p c = true.
Proof.
  intros H c. rewrite forallb_forall in H. apply H.
  rewrite <- (ascii_nat_embedding c). apply in_map, in_seq.
  pose proof (nat_ascii_bounded c). lia.
Qed.

Ltac by_cases_on_char c :=
  revert c;
  match goal with
  | |- forall c, @?P c = true => apply (for_all_chars P); vm_compute; reflexivity
  end.

Lemma isspace_lower_char c : PyStr.isspace (PyStr.lower_char c) = PyStr.isspace c.
Proof.
  apply Bool.eqb_prop. by_cases_on_char c.
Qed.

Lemma ident_char_keep_lower c :
  ident_char (keep_or_underscore (PyStr.lower_char c)) = true.
Proof. by_cases_on_char c. Qed.

Lemma ident_char_not_space c : ident_char c = true -> PyStr.isspace c = false.
Proof.
  intros H.
  assert (G : implb (ident_char c) (negb (PyStr.isspace c)) = true)
    by (clear H; by_cases_on_char c).
  rewrite H in G. now apply negb_true_iff.
Qed.

Lemma ident_char_lower c : ident_char c = true -> PyStr.lower_char c = c.
Proof.
  intros H.
  assert (G : implb (ident_char c) (Ascii.eqb (PyStr.lower_char c) c) = true)
    by (clear H; by_cases_on_char c).
  rewrite H in G. now apply Ascii.eqb_eq.
Qed.

Lemma ident_char_keep c : ident_char c = true -> keep_or_underscore c = c.
Proof.
  intros H.
  assert (G : implb (ident_char c) (Ascii.eqb (keep_or_underscore c) c) = true)
    by (clear H; by_cases_on_char c).
  rewrite H in G. now apply Ascii.eqb_eq.
Qed.

Lemma ident_char_not_blank c : ident_char c = true -> Ascii.eqb c " " = false.
Proof.
  intros H.
  assert (G : implb (ident_char c) (negb (Ascii.eqb c " ")) = true)
    by (clear H; by_cases_on_char c).
  rewrite H in G. now apply negb_true_iff.
Qed.


Lemma lstrip_lower s : PyStr.lstrip (PyStr.lower s) = PyStr.lower (PyStr.lstrip s).
Proof.
  unfold PyStr.lower. induction s as [|c s IH]; simpl; [reflexivity |].
  rewrite isspace_lower_char. destruct (PyStr.isspace c); [exact IH | reflexivity].
Qed.

Lemma rstrip_lower s : PyStr.rstrip (PyStr.lower s) = PyStr.lower (PyStr.rstrip s).
Proof.
  unfold PyStr.lower. induction s as [|c s IH]; simpl; [reflexivity |].
  rewrite IH, isspace_lower_char.
  destruct (PyStr.rstrip s); simpl; [destruct (PyStr.isspace c) |]; reflexivity.
Qed.

Lemma strip_lower s : PyStr.strip (PyStr.lower s) = PyStr.lower (PyStr.strip s).
Proof. unfold PyStr.strip. now rewrite lstrip_lower, rstrip_lower. Qed.

Lemma rstrip_no_space s :
  PyStr.all_chars (fun c => negb (PyStr.isspace c)) s = true -> PyStr.rstrip s = s.
Proof.
  induction s as [|c s IH]; simpl; [reflexivity |].
  intros [Hc Hs]%andb_prop. rewrite (IH Hs).
  apply negb_true_iff in Hc. rewrite Hc. now destruct s.
Qed.

Lemma lstrip_no_space s :
  PyStr.all_chars (fun c => negb (PyStr.isspace c)) s = true -> PyStr.lstrip s = s.
Proof.
  destruct s as [|c s]; simpl; [reflexivity |].
  intros [Hc _]%andb_prop. apply negb_true_iff in Hc. now rewrite Hc.
Qed.

Lemma identifier_no_space s :
  is_identifier s = true ->
  PyStr.all_chars (fun c => negb (PyStr.isspace c)) s = true.
Proof.
  apply all_chars_impl. intros c H. now rewrite (ident_char_not_space c H).
Qed.

Lemma strip_identifier s : is_identifier s = true -> PyStr.strip s = s.
Proof.
  intros H%identifier_no_space. unfold PyStr.strip.
  now rewrite (lstrip_no_space s H), (rstrip_no_space s H).
Qed.

Lemma lower_identifier s : is_identifier s = true -> PyStr.lower s = s.
Proof. apply (map_chars_id_on ident_char), ident_char_lower. Qed.

(** The sanitiser of [data_extractor.py] only produces lower-case letters,
    digits and underscores. *)
Lemma sanitize_name_is_identifier col : is_identifier (sanitize_name col) = true.
Proof.
  unfold sanitize_name, is_identifier, PyStr.lower.
  rewrite map_chars_map_chars. apply all_chars_map_chars, ident_char_keep_lower.
Qed.

(** ... and leaves such names alone. *)
Lemma sanitize_name_identifier s : is_identifier s = true -> sanitize_name s = s.
Proof.
  intros H. unfold sanitize_name.
  rewrite (strip_identifier s H), (lower_identifier s H).
  apply (map_chars_id_on ident_char); [apply ident_char_keep | exact H].
Qed.


(** The code strips before it lower-cases, the specification lower-cases
    first: the two orders give the same name. *)
Lemma sanitize_name_meets_spec col : sanitize_name col = spec_sanitize col.
Proof. unfold sanitize_name, spec_sanitize. now rewrite strip_lower. Qed.

Lemma main_sanitize_name_identifier s :
  is_identifier s = true -> main_sanitize_name s = s.
Proof.
  intros H. unfold main_sanitize_name, PyStr.replace_char.
  rewrite (map_chars_id_on ident_char).
  - now apply lower_identifier.
  - intros c Hc. now rewrite (ident_char_not_blank c Hc).
  - exact H.
Qed.

Lemma identifier_no_punctuation s :
  is_identifier s = true -> PyStr.any_char is_punct_or_space s = false.
Proof.
  induction s as [|c s IH]; simpl; [reflexivity |].
  intros [Hc Hs]%andb_prop. rewrite (IH Hs), orb_false_r.
  assert (G : implb (ident_char c) (negb (is_punct_or_space c)) = true)
    by (clear; by_cases_on_char c).
  rewrite Hc in G. now apply negb_true_iff.
Qed.

(** So a name sanitised by [data_extractor.py] holds no white space and no
    punctuation other than underscores. *)
Lemma sanitize_name_no_punctuation col :
  PyStr.any_char is_punct_or_space (sanitize_name col) = false.
Proof. apply identifier_no_punctuation, sanitize_name_is_identifier. Qed.

(** On the header of the specification [data_extractor.py] gives a clean
    identifier. *)
Lemma sanitize_name_header :
  sanitize_name "Crude Birth Rate (per 1,000 people)" = "crude_birth_rate__per_1_000_people_".
Proof. vm_compute. reflexivity. Qed.

(** ** The inferred store type *)






(** ** Frames and their column definitions *)

Lemma dtypes_items_names d : map fst (dtypes_items d) = columns d.
Proof.
  unfold dtypes_items. change (map fst) with (fmap (M:=list) (@fst string string)).
  rewrite fmap_imap. rewrite (imap_ext _ (const id)) by reflexivity.
  rewrite imap_const. apply list_fmap_id.
Qed.

Lemma dtypes_items_dtypes d :
  map snd (dtypes_items d)
  = map (fun j => inferred_dtype (column_kinds d j)) (seq 0 (List.length (columns d))).
Proof.
  unfold dtypes_items. change (map snd) with (fmap (M:=list) (@snd string string)).
  rewrite fmap_imap. apply (imap_seq_0 (columns d) (fun j => inferred_dtype (column_kinds d j))).
Qed.

Lemma dtypes_items_lookup d j name :
  columns d !! j = Some name ->
  dtypes_items d !! j = Some (name, inferred_dtype (column_kinds d j)).
Proof. intros H. unfold dtypes_items. now rewrite list_lookup_imap, H. Qed.

(** Renaming the columns leaves the fields, hence the dtypes, alone. *)
Lemma column_kinds_set_columns names d j :
  column_kinds (set_columns names d) j = column_kinds d j.
Proof. reflexivity. Qed.

Lemma cols_defs_names d : map cd_name (DataExtractor.cols_defs d) = columns d.
Proof.
  unfold DataExtractor.cols_defs. rewrite map_map. simpl.
  apply dtypes_items_names.
Qed.

Lemma cols_defs_types d :
  map cd_type (DataExtractor.cols_defs d)
  = map (fun j => column_pg_type (column_kinds d j)) (seq 0 (List.length (columns d))).
Proof.
  unfold DataExtractor.cols_defs. rewrite map_map. simpl.
  rewrite <- (map_map snd pg_type), dtypes_items_dtypes, map_map. reflexivity.
Qed.

Lemma label_dtype_Some d j name t :
  columns d !! j = Some name ->
  Main.label_dtype d name = Some t ->
  t = inferred_dtype (column_kinds d j).
Proof.
  intros Hj%dtypes_items_lookup. unfold Main.label_dtype.
  assert (Hin : In (name, inferred_dtype (column_kinds d j))
                   (List.filter (fun item => String.eqb (fst item) name) (dtypes_items d))).
  { apply filter_In. split.
    - apply list_elem_of_In. eapply list_elem_of_lookup_2, Hj.
    - simpl. apply String.eqb_refl. }
  destruct (List.filter _ (dtypes_items d)) as [|item [|item' rest]]; try discriminate.
  intros [= <-]. destruct Hin as [->|[]]. reflexivity.
Qed.

(** The dict of [main.py] is the dict of [data_extractor.py]. *)
Lemma type_mapping_is_type_map : Main.type_mapping = type_map.
Proof. apply map_eq. intros dtype. unfold Main.type_mapping, type_map.
  destruct (String.eqb_spec dtype "int64") as [->|N1]; [reflexivity |].
  destruct (String.eqb_spec dtype "float64") as [->|N2]; [reflexivity |].
  destruct (String.eqb_spec dtype "bool") as [->|N3]; [reflexivity |].
  destruct (String.eqb_spec dtype "datetime64[ns]") as [->|N4]; [reflexivity |].
  destruct (String.eqb_spec dtype "object") as [->|N5]; [reflexivity |].
  rewrite !lookup_insert_ne, !lookup_singleton_ne by congruence. reflexivity.
Qed.

Lemma columns_definitions_Some d defs :
  Main.columns_definitions d = Some defs ->
  defs = imap (fun j col => {| cd_name := main_sanitize_name col;
                               cd_type := column_pg_type (column_kinds d j) |})
              (columns d).
Proof.
  unfold Main.columns_definitions. rewrite type_mapping_is_type_map.
  fold pg_type. intros H%mapM_Some.
  apply list_eq. intros j. rewrite list_lookup_imap.
  destruct (columns d !! j) as [name|] eqn:E; simpl.
  - destruct (Forall2_lookup_l _ _ _ _ _ H E) as (def & -> & Hdef).
    destruct (Main.label_dtype d name) as [t|] eqn:L; [|discriminate].
    simpl in Hdef. injection Hdef as <-.
    now rewrite (label_dtype_Some d j name t E L).
  - apply lookup_ge_None. rewrite <- (Forall2_length _ _ _ H).
    now apply lookup_ge_None.
Qed.

Lemma main_definitions_names d defs :
  Main.columns_definitions d = Some defs ->
  map cd_name defs = map main_sanitize_name (columns d).
Proof.
  intros ->%columns_definitions_Some.
  change (map cd_name) with (fmap (M:=list) cd_name). rewrite fmap_imap.
  rewrite (imap_ext _ (const main_sanitize_name)) by reflexivity.
  apply imap_const.
Qed.

Lemma main_definitions_types d defs :
  Main.columns_definitions d = Some defs ->
  map cd_type defs
  = map (fun j => column_pg_type (column_kinds d j)) (seq 0 (List.length (columns d))).
Proof.
  intros ->%columns_definitions_Some.
  change (map cd_type) with (fmap (M:=list) cd_type). rewrite fmap_imap.
  apply (imap_seq_0 (columns d) (fun j => column_pg_type (column_kinds d j))).
Qed.

(** ** Claims about names and types *)




(** C2.  [main.py] sanitises with [replace(' ', '_').lower()] only: for the
    header of the specification it leaves the parentheses and the comma in
    the name, where the rule of the claim (and [data_extractor.py]) gives
    underscores; the name goes like that into the column definitions. *)
Theorem main_sanitize_keeps_punctuation :
  let header := "Crude Birth Rate (per 1,000 people)" in
  main_sanitize_name header = "crude_birth_rate_(per_1,000_people)"
  /\ PyStr.any_char is_punct_or_space (main_sanitize_name header) = true
  /\ spec_sanitize header = "crude_birth_rate__per_1_000_people_"
  /\ main_sanitize_name header <> spec_sanitize header
  /\ option_map (map cd_name) (Main.columns_definitions birth_rate_frame)
     = Some ["entity"; "year"; "crude_birth_rate_(per_1,000_people)"].
Proof.
  simpl. repeat split; try reflexivity. vm_compute. discriminate.
Qed.

Lemma NoDup_map_inj_on {A B : Type} (f : A -> B) (l : list A) :
  List.NoDup l ->
  (List.NoDup (map f l) <-> (forall a b, In a l -> In b l -> f a = f b -> a = b)).
Proof.
  induction 1 as [|x l Hx Hl IH]; simpl.
  - split; [intros _ a b [] | constructor].
  - split.
    + intros Hnd. apply List.NoDup_cons_iff in Hnd as [Hfx Hfl].
      intros a b [<-|Ha] [<-|Hb] E; try reflexivity.
      * exfalso. apply Hfx. rewrite E. now apply in_map.
      * exfalso. apply Hfx. rewrite <- E. now apply in_map.
      * now apply (proj1 IH Hfl).
    + intros Hinj. apply List.NoDup_cons.
      * intros (y & E & Hy)%in_map_iff.
        apply Hx. now rewrite <- (Hinj y x (or_intror Hy) (or_introl eq_refl) E).
      * apply IH. intros a b Ha Hb. apply Hinj; now right.
Qed.

Lemma map_id_on {A : Type} (f : A -> A) (P : A -> Prop) (l : list A) :
  (forall a, P a -> f a = a) -> List.Forall P l -> map f l = l.
Proof.
  intros Hf. induction 1 as [|a l Ha _ IH]; simpl; [reflexivity |].
  now rewrite (Hf a Ha), IH.
Qed.

(** C9, counterexample.  The names "a b" and "a_b" differ; both sanitisers
    give "a_b" for each of them, so the sanitised names repeat. *)
Lemma sanitized_names_collide :
  let names := ["a b"; "a_b"] in
  List.NoDup names
  /\ map sanitize_name names = ["a_b"; "a_b"]
  /\ map main_sanitize_name names = ["a_b"; "a_b"]
  /\ ~ List.NoDup (map sanitize_name names)
  /\ ~ List.NoDup (map main_sanitize_name names).
Proof.
  simpl. split; [|split; [reflexivity | split; [reflexivity | split]]].
  - constructor; [|constructor; [|constructor]]; simpl; [|tauto].
    intros [H|[]]. discriminate.
  - change (sanitize_name "a b") with "a_b". change (sanitize_name "a_b") with "a_b".
    intros H. apply List.NoDup_cons_iff in H as [H _]. apply H. now left.
  - change (main_sanitize_name "a b") with "a_b".
    change (main_sanitize_name "a_b") with "a_b".
    intros H. apply List.NoDup_cons_iff in H as [H _]. apply H. now left.
Qed.

(** C9, amended.  Neither sanitiser resolves collisions: each name is
    sanitised on its own, and for pairwise distinct column names the
    sanitised names are pairwise distinct exactly when no two of the names
    sanitise to the same string.  That is the case when the names are
    already identifiers (lower-case letters, digits, underscores), which
    both sanitisers leave unchanged. *)
Theorem sanitized_names_distinct_iff (names : list string) :
  List.NoDup names ->
  (List.NoDup (map sanitize_name names)
   <-> (forall a b, In a names -> In b names -> sanitize_name a = sanitize_name b -> a = b))
  /\ (List.NoDup (map main_sanitize_name names)
      <-> (forall a b, In a names -> In b names ->
                       main_sanitize_name a = main_sanitize_name b -> a = b))
  /\ (List.Forall (fun n => is_identifier n = true) names ->
      map sanitize_name names = names /\ map main_sanitize_name names = names
      /\ List.NoDup (map sanitize_name names) /\ List.NoDup (map main_sanitize_name names)).
Proof.
  intros Hnd. split; [now apply NoDup_map_inj_on |].
  split; [now apply NoDup_map_inj_on |].
  intros Hid.
  assert (E1 : map sanitize_name names = names)
    by (apply (map_id_on _ _ _ sanitize_name_identifier Hid)).
  assert (E2 : map main_sanitize_name names = names)
    by (apply (map_id_on _ _ _ main_sanitize_name_identifier Hid)).
  rewrite E1, E2. auto.
Qed.

(** C9 on the names of the sample frame. *)
Lemma sanitized_names_distinct_iff_witness :
  List.NoDup ["entity"; "code"; "year"; "rate"]
  /\ List.NoDup (map sanitize_name ["entity"; "code"; "year"; "rate"])
  /\ List.NoDup (map main_sanitize_name ["entity"; "code"; "year"; "rate"]).
Proof.
  assert (Hnd : List.NoDup ["entity"; "code"; "year"; "rate"]).
  { apply NoDup_ListNoDup, (bool_decide_unpack _). vm_compute. exact I. }
  split; [exact Hnd |].
  destruct (sanitized_names_distinct_iff _ Hnd) as (_ & _ & H).
  apply H. repeat constructor.
Defined.


(** What [create_table] leaves in the extractor and sends to the store,
    whatever the store answers. *)
Lemma create_table_effects env self db c d :
  DataExtractor.conn self = Some c -> DataExtractor.df self = Some d ->
  let d' := DataExtractor._sanitize_columns d in
  let o := DataExtractor.create_table env self db in
  self_of o = DataExtractor.set_df d' self
  /\ In (EExecute (create_table_stmt (Identifier (DataExtractor.table_name self))
                                     (DataExtractor.cols_defs d')))
        (trace_of o).
Proof.
  intros Hc Hd. unfold DataExtractor.create_table. rewrite Hc, Hd. simpl.
  destruct (exec_create _ _ _); [|unfold rollback_and_fail; destruct (rollback_ok env)];
    simpl; auto.
Qed.



(** ** The store *)



Lemma has_table_false_named name cat :
  has_table name cat = false -> tables_named name cat = [].
Proof.
  induction cat as [|t cat IH]; simpl; [reflexivity |].
  intros [Ht Hc]%orb_false_elim. rewrite Ht. auto.
Qed.





(** ** Provisioning *)

Lemma rollback_and_fail_result {E : Type} env m (self : E) db before :
  result_of (rollback_and_fail env m self db before)
  = (if rollback_ok env then Returned false else Raised).
Proof. unfold rollback_and_fail. now destruct (rollback_ok env). Qed.

Lemma rollback_and_fail_trace {E : Type} env m (self : E) db before :
  trace_of (rollback_and_fail env m self db before)
  = before ++ [ERollback; end_mark m (if rollback_ok env then Returned false else Raised)].
Proof. unfold rollback_and_fail. now destruct (rollback_ok env). Qed.

Lemma rollback_and_fail_self {E : Type} env m (self : E) db before :
  self_of (rollback_and_fail env m self db before) = self.
Proof. unfold rollback_and_fail. now destruct (rollback_ok env). Qed.

Lemma rollback_and_fail_committed {E : Type} env m (self : E) db before :
  committed (db_of (rollback_and_fail env m self db before)) = committed db.
Proof. unfold rollback_and_fail. now destruct (rollback_ok env). Qed.

Lemma rollback_and_fail_not_true {E : Type} env m (self : E) db before :
  result_of (rollback_and_fail env m self db before) <> Returned true.
Proof. rewrite rollback_and_fail_result. now destruct (rollback_ok env). Qed.









(** ** The statement that creates the table *)

Lemma insert_batches_events env table cols values starts db :
  List.Forall (is_batch_event table cols)
              (snd (Main.insert_batches env table cols values starts db)).
Proof.
  revert db. induction starts as [|i starts IH]; intros db; simpl; [constructor |].
  destruct (Main.executemany _ _ _ _ _) as [cat|].
  - specialize (IH (commit {| committed := committed db; pending := cat |})).
    destruct (Main.insert_batches _ _ _ _ _ _) as [[ok db''] ev]. simpl in *.
    repeat (constructor; simpl; auto).
  - repeat (constructor; simpl; auto).
Qed.





(** ** Fetching *)

Lemma de_fetch_cases env self db :
  let o := DataExtractor.fetch_csv env self db in
  (result_of o = Returned false /\ self_of o = self /\ db_of o = db)
  \/ (result_of o = Returned true /\ db_of o = db
      /\ exists status body d,
           http_get env (DataExtractor.csv_url self) DataExtractor.fetch_timeout
           = HttpResponse status body
           /\ raises_for_status status = false
           /\ read_csv env body = Parsed d
           /\ self_of o = DataExtractor.set_df d self).
Proof.
  unfold DataExtractor.fetch_csv.
  destruct (http_get env _ _) as [e|status body]; simpl; auto.
  destruct (raises_for_status status) eqn:S; simpl; auto.
  destruct (read_csv env body) as [d| |] eqn:R; simpl; auto.
  right. repeat split. exists status, body, d. auto.
Qed.

Lemma main_fetch_cases env self db :
  let o := Main.fetch_csv_data env self db in
  (result_of o = Returned false /\ self_of o = self /\ db_of o = db)
  \/ (result_of o = Returned true /\ db_of o = db
      /\ exists status body d,
           http_get env (Main.csv_url self) Main.fetch_timeout = HttpResponse status body
           /\ raises_for_status status = false
           /\ read_csv env body = Parsed d
           /\ self_of o = Main.set_df d self).
Proof.
  unfold Main.fetch_csv_data.
  destruct (http_get env _ _) as [e|status body]; simpl; auto.
  destruct (raises_for_status status) eqn:S; simpl; auto.
  destruct (read_csv env body) as [d| |] eqn:R; simpl; auto.
  right. repeat split. exists status, body, d. auto.
Qed.

Lemma raises_for_status_range status :
  (400 <= status < 600)%Z -> raises_for_status status = true.
Proof. unfold raises_for_status. lia. Qed.

(** C6, counterexample.  The server answers 300, a status outside 2xx that
    [raise_for_status] lets pass, with a body the reader parses: both fetch
    methods return [True] and store the frame. *)
Lemma status_300_is_fetched :
  let env := env_with_status 300 in
  let o1 := DataExtractor.fetch_csv env (DataExtractor.init owid_url "crude_birth_rate")
                                    empty_db in
  let o2 := Main.fetch_csv_data env (Main.init owid_url main_config) empty_db in
  ~ (200 <= 300 < 300)%Z
  /\ result_of o1 = Returned true /\ DataExtractor.df (self_of o1) = Some owid_frame
  /\ result_of o2 = Returned true /\ Main.df (self_of o2) = Some owid_frame.
Proof.
  simpl. split; [lia |]. repeat split; vm_compute; reflexivity.
Qed.

(** C6, amended.  When the request raises (time-out, connection failure,
    host not reachable) or the answer has a status from 400 to 599, the
    fetch method returns [False]; and whenever it returns [False] (also
    when the body does not parse) it leaves the extractor as it found it,
    so a data set that was unset stays unset. *)
Theorem failed_fetch_leaves_no_dataset (env : Env) (db : Db) :
  (forall self : DataExtractor.Extractor,
     let o := DataExtractor.fetch_csv env self db in
     ((exists e, http_get env (DataExtractor.csv_url self) (Some 30) = HttpRaises e)
      \/ (exists status body,
            http_get env (DataExtractor.csv_url self) (Some 30) = HttpResponse status body
            /\ (400 <= status < 600)%Z) ->
      result_of o = Returned false)
     /\ (result_of o = Returned false ->
         self_of o = self
         /\ (DataExtractor.df self = None -> DataExtractor.df (self_of o) = None)))
  /\ (forall self : Main.Extractor,
        let o := Main.fetch_csv_data env self db in
        ((exists e, http_get env (Main.csv_url self) None = HttpRaises e)
         \/ (exists status body,
               http_get env (Main.csv_url self) None = HttpResponse status body
               /\ (400 <= status < 600)%Z) ->
         result_of o = Returned false)
        /\ (result_of o = Returned false ->
            self_of o = self /\ (Main.df self = None -> Main.df (self_of o) = None))).
Proof.
  split.
  - intros self o. split.
    + subst o. unfold DataExtractor.fetch_csv, DataExtractor.fetch_timeout.
      intros [[e ->]|(status & body & -> & Hs)]; [reflexivity |].
      now rewrite (raises_for_status_range status Hs).
    + subst o. intros Hf.
      destruct (de_fetch_cases env self db) as [(_ & -> & _)|(Ht & _)];
        [auto | congruence].
  - intros self o. split.
    + subst o. unfold Main.fetch_csv_data, Main.fetch_timeout.
      intros [[e ->]|(status & body & -> & Hs)]; [reflexivity |].
      now rewrite (raises_for_status_range status Hs).
    + subst o. intros Hf.
      destruct (main_fetch_cases env self db) as [(_ & -> & _)|(Ht & _)];
        [auto | congruence].
Qed.

(** C6 with a host that cannot be reached and with a status 404. *)
Lemma failed_fetch_leaves_no_dataset_witness :
  (let o := DataExtractor.fetch_csv env_unreachable
              (DataExtractor.init owid_url "crude_birth_rate") empty_db in
   result_of o = Returned false /\ DataExtractor.df (self_of o) = None)
  /\ (let o := Main.fetch_csv_data (env_with_status 404)
                 (Main.init owid_url main_config) empty_db in
      result_of o = Returned false /\ Main.df (self_of o) = None).
Proof.
  split.
  - destruct (failed_fetch_leaves_no_dataset env_unreachable empty_db) as [HD _].
    destruct (HD (DataExtractor.init owid_url "crude_birth_rate")) as [Hfail Hkeep].
    assert (Hf := Hfail (or_introl (ex_intro _ ConnectionError eq_refl))).
    split; [exact Hf |]. exact (proj2 (Hkeep Hf) eq_refl).
  - destruct (failed_fetch_leaves_no_dataset (env_with_status 404) empty_db) as [_ HM].
    destruct (HM (Main.init owid_url main_config)) as [Hfail Hkeep].
    assert (Hr : (400 <= 404 < 600)%Z) by lia.
    assert (Hf := Hfail (or_intror (ex_intro _ 404%Z
                           (ex_intro _ owid_body (conj eq_refl Hr))))).
    split; [exact Hf |]. exact (proj2 (Hkeep Hf) eq_refl).
Defined.

(** C7.  [data_extractor.py] issues its one request with a time-out of 30
    seconds; [main.py] issues its one request without any time-out, so
    nothing bounds the time its fetch may block. *)
Theorem main_fetch_has_no_timeout (env : Env) (db : Db)
    (de : DataExtractor.Extractor) (self : Main.Extractor) :
  http_requests (trace_of (DataExtractor.fetch_csv env de db))
  = [(DataExtractor.csv_url de, Some 30)]
  /\ http_requests (trace_of (Main.fetch_csv_data env self db))
     = [(Main.csv_url self, None)].
Proof.
  split.
  - unfold DataExtractor.fetch_csv.
    destruct (http_get env _ _) as [e|status body]; [reflexivity |].
    destruct (raises_for_status status); [reflexivity |].
    destruct (read_csv env body); reflexivity.
  - unfold Main.fetch_csv_data.
    destruct (http_get env _ _) as [e|status body]; [reflexivity |].
    destruct (raises_for_status status); [reflexivity |].
    destruct (read_csv env body); reflexivity.
Qed.

(** ** The driver *)

Lemma marks_app t1 t2 : marks (t1 ++ t2) = marks t1 ++ marks t2.
Proof. apply List.filter_app. Qed.

Lemma closes_marks t : closes (marks t) = closes t.
Proof.
  unfold closes, marks. induction t as [|e t IH]; [reflexivity |].
  destruct e; simpl; auto.
Qed.

Lemma batch_events_no_marks table cols ev :
  List.Forall (is_batch_event table cols) ev -> marks ev = [].
Proof.
  induction 1 as [|e ev He _ IH]; [reflexivity |].
  unfold marks in *. simpl. rewrite IH.
  destruct e as [| | | | | | | | | | | |lvl msg]; simpl in He; try tauto; try reflexivity.
Qed.

(** The marks of the end of an [except] block that rolls back. *)
Lemma rollback_and_fail_marks {E : Type} env m (self : E) db before :
  let o := rollback_and_fail env m self db before in
  marks (trace_of o) = marks before ++ [end_mark m (result_of o)].
Proof.
  unfold rollback_and_fail. destruct (rollback_ok env); unfold trace_of, result_of; simpl;
    now rewrite marks_app.
Qed.

Section DriverOfDataExtractor.

Variable env : Env.

Lemma de_connect_marks self db :
  let o := DataExtractor.connect env self db in
  marks (trace_of o) = [ECall MConnect; EReturn MConnect (connect_ok env)]
  /\ result_of o = Returned (connect_ok env)
  /\ (connect_ok env = true -> DataExtractor.conn (self_of o) = Some PgConnection).
Proof.
  unfold DataExtractor.connect. destruct (connect_ok env); simpl; intuition congruence.
Qed.

Lemma de_fetch_marks self db :
  let o := DataExtractor.fetch_csv env self db in
  exists b,
    result_of o = Returned b
    /\ marks (trace_of o) = [ECall MFetch; EReturn MFetch b]
    /\ DataExtractor.conn (self_of o) = DataExtractor.conn self.
Proof.
  unfold DataExtractor.fetch_csv.
  destruct (http_get env _ _) as [e|status body]; simpl; eauto.
  destruct (raises_for_status status); simpl; eauto.
  destruct (read_csv env body); simpl; eauto.
Qed.

Lemma de_create_marks self db :
  let o := DataExtractor.create_table env self db in
  marks (trace_of o) = [ECall MCreate; end_mark MCreate (result_of o)]
  /\ DataExtractor.conn (self_of o) = DataExtractor.conn self.
Proof.
  unfold DataExtractor.create_table.
  destruct (DataExtractor.conn self) eqn:Hc, (DataExtractor.df self) eqn:Hd; simpl; auto.
  destruct (exec_create _ _ _); simpl; auto.
  rewrite rollback_and_fail_marks, rollback_and_fail_self. simpl. auto.
Qed.

Lemma de_load_marks self db :
  let o := DataExtractor.bulk_insert env self db in
  marks (trace_of o) = [ECall MLoad; end_mark MLoad (result_of o)]
  /\ DataExtractor.conn (self_of o) = DataExtractor.conn self.
Proof.
  unfold DataExtractor.bulk_insert.
  destruct (DataExtractor.conn self) eqn:Hc, (DataExtractor.df self) eqn:Hd; simpl; auto.
  destruct (exec_load _ _ _ _ _); simpl; auto.
  rewrite rollback_and_fail_marks, rollback_and_fail_self. simpl. auto.
Qed.

Lemma de_close_marks self c :
  DataExtractor.conn self = Some c ->
  marks (DataExtractor.close self) = [ECall MClose; EConnClose].
Proof. unfold DataExtractor.close. now intros ->. Qed.

Lemma de_main_try_marks self db :
  let t := DataExtractor.main_try env self db in
  exists fetch create load,
    marks (snd t)
    = [ECall MFetch; EReturn MFetch fetch]
      ++ (if fetch
          then [ECall MCreate; end_mark MCreate create]
               ++ (if goes_on create then [ECall MLoad; end_mark MLoad load] else [])
          else [])
    /\ fst (fst (fst t)) = fetch && (escapes create || goes_on create && escapes load)
    /\ DataExtractor.conn (snd (fst (fst t))) = DataExtractor.conn self.
Proof.
  unfold DataExtractor.main_try.
  destruct (de_fetch_marks self db) as (b1 & R1 & M1 & C1).
  destruct (DataExtractor.fetch_csv env self db) as [[[r1 s1] db1] ev1].
  unfold trace_of, result_of, self_of in R1, M1, C1. simpl in R1, M1, C1. subst r1.
  destruct b1; simpl.
  2:{ exists false, Raised, Raised. auto. }
  destruct (de_create_marks s1 db1) as [M2 C2].
  destruct (DataExtractor.create_table env s1 db1) as [[[r2 s2] db2] ev2].
  unfold trace_of, result_of, self_of in M2, C2. simpl in M2, C2.
  destruct r2 as [[|]|]; simpl.
  2:{ exists true, (Returned false), Raised. rewrite marks_app, M1, M2.
      split; [reflexivity | split; [reflexivity | congruence]]. }
  2:{ exists true, Raised, Raised. rewrite marks_app, M1, M2.
      split; [reflexivity | split; [reflexivity | congruence]]. }
  destruct (de_load_marks s2 db2) as [M3 C3].
  destruct (DataExtractor.bulk_insert env s2 db2) as [[[r3 s3] db3] ev3].
  unfold trace_of, result_of, self_of in M3, C3. simpl in M3, C3.
  exists true, (Returned true), r3.
  destruct r3 as [[|]|]; simpl; rewrite !marks_app, M1, M2, M3;
    (split; [reflexivity | split; [reflexivity | congruence]]).
Qed.

End DriverOfDataExtractor.

Section DriverOfMain.

Variable env : Env.
Variable table : string.

Lemma main_connect_marks self db :
  let o := Main.connect_to_database env self db in
  marks (trace_of o) = [ECall MConnect; EReturn MConnect (connect_ok env)]
  /\ result_of o = Returned (connect_ok env)
  /\ (connect_ok env = true -> Main.db_connection (self_of o) = Some PgConnection).
Proof.
  unfold Main.connect_to_database. destruct (connect_ok env); simpl; intuition congruence.
Qed.

Lemma main_fetch_marks self db :
  let o := Main.fetch_csv_data env self db in
  exists b,
    result_of o = Returned b
    /\ marks (trace_of o) = [ECall MFetch; EReturn MFetch b]
    /\ Main.db_connection (self_of o) = Main.db_connection self.
Proof.
  unfold Main.fetch_csv_data.
  destruct (http_get env _ _) as [e|status body]; simpl; eauto.
  destruct (raises_for_status status); simpl; eauto.
  destruct (read_csv env body); simpl; eauto.
Qed.

Lemma main_create_marks self db :
  let o := Main.create_table_if_not_exists env table self db in
  marks (trace_of o) = [ECall MCreate; end_mark MCreate (result_of o)]
  /\ Main.db_connection (self_of o) = Main.db_connection self.
Proof.
  unfold Main.create_table_if_not_exists.
  destruct (Main.db_connection self) eqn:Hc, (Main.df self) eqn:Hd; simpl; auto.
  destruct (Main.columns_definitions _); simpl.
  - destruct (exec_create _ _ _); simpl; auto.
    rewrite rollback_and_fail_marks, rollback_and_fail_self. simpl. auto.
  - rewrite rollback_and_fail_marks, rollback_and_fail_self. simpl. auto.
Qed.

Lemma main_load_marks self db :
  let o := Main.save_to_database env table self db in
  marks (trace_of o) = [ECall MLoad; end_mark MLoad (result_of o)]
  /\ Main.db_connection (self_of o) = Main.db_connection self.
Proof.
  unfold Main.save_to_database.
  destruct (Main.db_connection self) eqn:Hc, (Main.df self) eqn:Hd; simpl; auto.
  pose proof (insert_batches_events env (RawName table)
                (map main_sanitize_name (columns d)) (rows d)
                (Main.range_step (List.length (rows d)) Main.batch_size) db) as Hev.
  apply batch_events_no_marks in Hev.
  destruct (Main.insert_batches _ _ _ _ _ _) as [[ok db'] ev]. simpl in Hev.
  destruct ok.
  - unfold trace_of, result_of, self_of; simpl.
    change (List.filter is_mark (ev ++ ?l)) with (marks (ev ++ l)).
    rewrite marks_app, Hev; simpl; auto.
  - rewrite rollback_and_fail_marks, rollback_and_fail_self.
    change (marks (ECall MLoad :: ev ++ ?l)) with (ECall MLoad :: marks (ev ++ l)).
    rewrite marks_app, Hev. simpl. auto.
Qed.

Lemma main_close_marks self c :
  Main.db_connection self = Some c ->
  marks (Main.close_connection self) = [ECall MClose; EConnClose].
Proof. unfold Main.close_connection. now intros ->. Qed.

Lemma main_main_try_marks self db :
  let t := Main.main_try env table self db in
  exists fetch create load,
    marks (snd t)
    = [ECall MFetch; EReturn MFetch fetch]
      ++ (if fetch
          then [ECall MCreate; end_mark MCreate create]
               ++ (if goes_on create then [ECall MLoad; end_mark MLoad load] else [])
          else [])
    /\ fst (fst (fst t)) = fetch && (escapes create || goes_on create && escapes load)
    /\ Main.db_connection (snd (fst (fst t))) = Main.db_connection self.
Proof.
  unfold Main.main_try.
  destruct (main_fetch_marks self db) as (b1 & R1 & M1 & C1).
  destruct (Main.fetch_csv_data env self db) as [[[r1 s1] db1] ev1].
  unfold trace_of, result_of, self_of in R1, M1, C1. simpl in R1, M1, C1. subst r1.
  destruct b1; simpl.
  2:{ exists false, Raised, Raised. rewrite marks_app, M1. auto. }
  destruct (main_create_marks s1 db1) as [M2 C2].
  destruct (Main.create_table_if_not_exists env table s1 db1) as [[[r2 s2] db2] ev2].
  unfold trace_of, result_of, self_of in M2, C2. simpl in M2, C2.
  destruct r2 as [[|]|]; simpl.
  2:{ exists true, (Returned false), Raised. rewrite !marks_app, M1, M2.
      split; [reflexivity | split; [reflexivity | congruence]]. }
  2:{ exists true, Raised, Raised. rewrite marks_app, M1, M2.
      split; [reflexivity | split; [reflexivity | congruence]]. }
  destruct (main_load_marks s2 db2) as [M3 C3].
  destruct (Main.save_to_database env table s2 db2) as [[[r3 s3] db3] ev3].
  unfold trace_of, result_of, self_of in M3, C3. simpl in M3, C3.
  exists true, (Returned true), r3.
  destruct r3 as [[|]|]; simpl; rewrite !marks_app, M1, M2, M3;
    (split; [reflexivity | split; [reflexivity | congruence]]).
Qed.

End DriverOfMain.

Lemma marks_of_run_ok connect fetch create load :
  no_step_after_failure (marks_of_run connect fetch create load) = true
  /\ closes (marks_of_run connect fetch create load) = (if connect then 1 else 0).
Proof.
  destruct connect, fetch, create as [[|]|], load as [[|]|]; split; reflexivity.
Qed.

(** C8.  In both files a run of [main] enters the methods in the order
    connect, fetch, create, load and stops at the first one that returns
    [False] or lets an exception escape: after a failure no further step
    runs.  When [connect] returned [True] the run ends, on every path, by
    entering [close], which closes the connection; the connection is closed
    exactly once.  When [connect] failed there is no connection and nothing
    is closed. *)
Theorem pipeline_stops_and_releases (env : Env) (csv_url table : string)
    (config : gmap string string) (db : Db) :
  (exists fetch create load,
     marks (snd (DataExtractor.main env csv_url table db))
     = marks_of_run (connect_ok env) fetch create load)
  /\ no_step_after_failure (marks (snd (DataExtractor.main env csv_url table db))) = true
  /\ closes (snd (DataExtractor.main env csv_url table db))
     = (if connect_ok env then 1 else 0)
  /\ (exists fetch create load,
        marks (snd (Main.main env csv_url config table db))
        = marks_of_run (connect_ok env) fetch create load)
  /\ no_step_after_failure (marks (snd (Main.main env csv_url config table db))) = true
  /\ closes (snd (Main.main env csv_url config table db))
     = (if connect_ok env then 1 else 0).
Proof.
  assert (HD : exists fetch create load,
             marks (snd (DataExtractor.main env csv_url table db))
             = marks_of_run (connect_ok env) fetch create load).
  { unfold DataExtractor.main.
    destruct (de_connect_marks env (DataExtractor.init csv_url table) db) as (M0 & R0 & C0).
    destruct (DataExtractor.connect env _ db) as [[[r0 s0] db0] ev0].
    unfold trace_of, result_of, self_of in M0, R0, C0. simpl in M0, R0, C0. subst r0.
    destruct (connect_ok env); simpl.
    2:{ exists false, Raised, Raised. exact M0. }
    destruct (de_main_try_marks env s0 db0) as (f & c & l & M & R & C).
    destruct (DataExtractor.main_try env s0 db0) as [[[raised s1] db1] ev].
    simpl in M, R, C |- *. subst raised.
    exists f, c, l. rewrite !marks_app, M0, M.
    rewrite (de_close_marks s1 PgConnection) by (rewrite C; auto).
    unfold marks_of_run. destruct f, c as [[|]|], l as [[|]|]; reflexivity. }
  assert (HM : exists fetch create load,
             marks (snd (Main.main env csv_url config table db))
             = marks_of_run (connect_ok env) fetch create load).
  { unfold Main.main.
    destruct (main_connect_marks env (Main.init csv_url config) db) as (M0 & R0 & C0).
    destruct (Main.connect_to_database env _ db) as [[[r0 s0] db0] ev0].
    unfold trace_of, result_of, self_of in M0, R0, C0. simpl in M0, R0, C0. subst r0.
    destruct (connect_ok env); simpl.
    2:{ exists false, Raised, Raised. rewrite marks_app, M0. reflexivity. }
    destruct (main_main_try_marks env table s0 db0) as (f & c & l & M & R & C).
    destruct (Main.main_try env table s0 db0) as [[[raised s1] db1] ev].
    simpl in M, R, C |- *. subst raised.
    exists f, c, l. rewrite !marks_app, M0, M.
    rewrite (main_close_marks s1 PgConnection) by (rewrite C; auto).
    unfold marks_of_run. destruct f, c as [[|]|], l as [[|]|]; reflexivity. }
  split; [exact HD |].
  destruct HD as (f1 & c1 & l1 & E1). destruct HM as (f2 & c2 & l2 & E2).
  rewrite <- (closes_marks (snd (DataExtractor.main _ _ _ _))).
  rewrite <- (closes_marks (snd (Main.main _ _ _ _ _))).
  rewrite E1, E2.
  destruct (marks_of_run_ok (connect_ok env) f1 c1 l1) as [A1 B1].
  destruct (marks_of_run_ok (connect_ok env) f2 c2 l2) as [A2 B2].
  repeat split; eauto.
Qed.

(** ** Loading *)










Section Loading.

Variable env : Env.
Variable table : SqlName.
Variable cols : list string.

Let name : string := resolve table.
Let ok : list Cell -> bool := accepts_row env name cols.




Lemma slice_batch {A : Type} (values : list A) a :
  Main.slice (a * Main.batch_size) (a * Main.batch_size + Main.batch_size) values
  = firstn Main.batch_size (skipn (a * Main.batch_size) values).
Proof. unfold Main.slice. f_equal. lia. Qed.

End Loading.

Lemma batch_size_pos : 0 < Main.batch_size.
Proof. unfold Main.batch_size. lia. Qed.



Local Opaque Main.batch_size.



Lemma range_step_covers {A : Type} (values : list A) :
  firstn ((List.length values + Main.batch_size - 1) / Main.batch_size * Main.batch_size)
         (skipn (0 * Main.batch_size) values)
  = values.
Proof.
  pose proof batch_size_pos as HB. simpl. apply firstn_all2.
  pose proof (Nat.div_mod_eq (List.length values + Main.batch_size - 1) Main.batch_size).
  pose proof (Nat.mod_upper_bound (List.length values + Main.batch_size - 1)
                Main.batch_size).
  nia.
Qed.

Lemma rollback_clean cat : rollback (clean cat) = clean cat.
Proof. reflexivity. Qed.





Local Transparent Main.batch_size.






(** ** The sample run, end to end

    The body of the specification's example, in a world where everything
    works: both drivers create the table with the columns [entity TEXT],
    [code TEXT], [year INTEGER], [rate NUMERIC] between [id] and
    [import_date], persist the two rows, and close the connection once. *)

Lemma sample_run_data_extractor :
  let run := DataExtractor.main friendly_env owid_url "crude_birth_rate" empty_db in
  map (fun t => (t_name t, map (fun c => (cd_name c, cd_type c)) (t_columns t)))
      (committed (fst run))
  = [("crude_birth_rate",
      [("id", "SERIAL PRIMARY KEY"); ("entity", "TEXT"); ("code", "TEXT");
       ("year", "INTEGER"); ("rate", "NUMERIC");
       ("import_date", "TIMESTAMP DEFAULT CURRENT_TIMESTAMP")])]
  /\ rows_of "crude_birth_rate" (committed (fst run)) = rows owid_frame
  /\ marks (snd run) = marks_of_run true true (Returned true) (Returned true)
  /\ http_requests (snd run) = [(owid_url, Some 30)].
Proof. vm_compute. auto. Qed.

Lemma sample_run_main :
  let run := Main.main friendly_env owid_url main_config "crude_birth_rate" empty_db in
  map (fun t => (t_name t, map (fun c => (cd_name c, cd_type c)) (t_columns t)))
      (committed (fst run))
  = [("crude_birth_rate",
      [("id", "SERIAL PRIMARY KEY"); ("entity", "TEXT"); ("code", "TEXT");
       ("year", "INTEGER"); ("rate", "NUMERIC");
       ("import_date", "TIMESTAMP DEFAULT CURRENT_TIMESTAMP")])]
  /\ rows_of "crude_birth_rate" (committed (fst run)) = rows owid_frame
  /\ marks (snd run) = marks_of_run true true (Returned true) (Returned true)
  /\ http_requests (snd run) = [(owid_url, None)].
Proof. vm_compute. auto. Qed.

(** With a host that cannot be reached the run stops after the fetch and
    still closes the connection. *)
Lemma sample_run_unreachable :
  let run := DataExtractor.main env_unreachable owid_url "crude_birth_rate" empty_db in
  committed (fst run) = []
  /\ marks (snd run) = marks_of_run true false (Returned false) (Returned false)
  /\ closes (snd run) = 1.
Proof. vm_compute. auto. Qed.

(** When the connection is lost after the fetch, the rollback in the
    [except] block of [create_table] raises: the exception leaves the
    method and [main], no load is tried, and the [finally] clause has
    closed the connection once. *)
Lemma sample_run_connection_lost :
  let run := DataExtractor.main env_connection_lost owid_url "crude_birth_rate" empty_db in
  let run' := Main.main env_connection_lost owid_url main_config "crude_birth_rate"
                empty_db in
  marks (snd run)
  = [ECall MConnect; EReturn MConnect true; ECall MFetch; EReturn MFetch true;
     ECall MCreate; ERaise MCreate; ECall MClose; EConnClose; EUncaught]
  /\ marks (snd run') = marks (snd run)
  /\ closes (snd run) = 1 /\ closes (snd run') = 1
  /\ committed (fst run) = [] /\ committed (fst run') = [].
Proof. vm_compute. auto 10. Qed.

(** * Further properties of the code *)

(** ** The store under provisioning and loading *)





Lemma rows_of_absent name cat : has_table name cat = false -> rows_of name cat = [].
Proof. intros H. unfold rows_of. now rewrite (has_table_false_named _ _ H). Qed.

































(** ** What a load appends *)








(** ** Provisioning, once more *)





(** ** Column labels that occur twice *)

Lemma filter_map_comm {A B : Type} (f : A -> B) (p : B -> bool) (l : list A) :
  List.filter p (map f l) = map f (List.filter (fun a => p (f a)) l).
Proof.
  induction l as [|a l IH]; simpl; [reflexivity |].
  destruct (p (f a)); simpl; now rewrite IH.
Qed.

Lemma length_filter_eqb (l : list string) (col : string) :
  List.length (List.filter (fun n => String.eqb n col) l) = count_occ string_dec l col.
Proof.
  induction l as [|n l IH]; simpl; [reflexivity |].
  destruct (String.eqb_spec n col) as [E|N], (string_dec n col) as [E'|N'];
    try congruence; simpl; now rewrite IH.
Qed.

(** The dtype of a label can be read when the label occurs once. *)
Lemma label_dtype_is_Some d col :
  is_Some (Main.label_dtype d col) <-> count_occ string_dec (columns d) col = 1.
Proof.
  rewrite <- length_filter_eqb, <- dtypes_items_names, filter_map_comm, length_map.
  unfold Main.label_dtype.
  destruct (List.filter _ (dtypes_items d)) as [|item [|item' rest]]; simpl; split;
    try (intros [x Hx]; discriminate Hx); try discriminate; eauto.
Qed.

Lemma columns_definitions_is_Some d :
  is_Some (Main.columns_definitions d) <-> List.NoDup (columns d).
Proof.
  unfold Main.columns_definitions. rewrite mapM_is_Some.
  rewrite (NoDup_count_occ' string_dec), Forall_forall.
  split; intros H col Hin.
  - apply list_elem_of_In in Hin. specialize (H col Hin). simpl in H.
    apply label_dtype_is_Some.
    destruct (Main.label_dtype d col); [eauto | destruct H as [x Hx]; discriminate Hx].
  - apply list_elem_of_In in Hin. specialize (H col Hin).
    apply label_dtype_is_Some in H as [t Ht]. simpl. rewrite Ht. simpl. eauto.
Qed.

(** X4.  [main.py] reads the dtype of a column through its label.  The
    column definitions can be built exactly when no label occurs twice in
    the frame.  With a label that occurs twice, [create_table_if_not_exists]
    sends nothing to the store, does not return [True] and leaves the
    durable store as it was; with distinct labels it sends its statement.
    [data_extractor.py], which walks through the dtypes, sends its statement
    for every frame. *)
Theorem duplicate_labels_block_main_provisioning (env : Env) (db : Db) (d : DataFrame)
    (table : string) (self : Main.Extractor) (de : DataExtractor.Extractor)
    (c : Connection) :
  Main.db_connection self = Some c -> Main.df self = Some d ->
  DataExtractor.conn de = Some c -> DataExtractor.df de = Some d ->
  let o := Main.create_table_if_not_exists env table self db in
  (is_Some (Main.columns_definitions d) <-> List.NoDup (columns d))
  /\ (~ List.NoDup (columns d) ->
      result_of o <> Returned true
      /\ existsb is_store_call (trace_of o) = false
      /\ committed (db_of o) = committed db)
  /\ (List.NoDup (columns d) -> exists stmt, In (EExecute stmt) (trace_of o))
  /\ (exists stmt, In (EExecute stmt) (trace_of (DataExtractor.create_table env de db))).
Proof.
  intros Hc Hd Hc' Hd'. cbv zeta.
  split; [apply columns_definitions_is_Some |].
  unfold Main.create_table_if_not_exists. rewrite Hc, Hd.
  split; [|split].
  - intros Hdup.
    destruct (Main.columns_definitions d) as [defs|] eqn:E.
    { exfalso. apply Hdup, columns_definitions_is_Some. rewrite E. eauto. }
    split; [apply rollback_and_fail_not_true |].
    split; [|apply rollback_and_fail_committed].
    rewrite rollback_and_fail_trace. now destruct (rollback_ok env).
  - intros Hnd. apply columns_definitions_is_Some in Hnd as [defs ->]. cbv zeta.
    exists (create_table_stmt (RawName table) defs).
    destruct (exec_create env _ (pending db)).
    + unfold trace_of. simpl. auto.
    + rewrite rollback_and_fail_trace. apply in_app_iff. left. simpl. auto.
  - destruct (create_table_effects env de db c d Hc' Hd') as [_ H]. eauto.
Qed.

Lemma duplicate_labels_block_main_provisioning_witness :
  Main.db_connection twin_main = Some PgConnection
  /\ Main.df twin_main = Some twin_frame
  /\ ~ List.NoDup (columns twin_frame)
  /\ result_of (Main.create_table_if_not_exists friendly_env "crude_birth_rate"
                  twin_main empty_db) <> Returned true.
Proof.
  split; [reflexivity |]. split; [reflexivity |].
  assert (Hdup : ~ List.NoDup (columns twin_frame)).
  { intros H. apply (NoDup_count_occ string_dec) with (x := "year") in H.
    vm_compute in H. lia. }
  split; [exact Hdup |].
  exact (proj1 (proj1 (proj2 (duplicate_labels_block_main_provisioning friendly_env empty_db
                                twin_frame "crude_birth_rate" twin_main
                                (DataExtractor.set_df twin_frame
                                   (DataExtractor.set_conn PgConnection
                                      (DataExtractor.init owid_url "crude_birth_rate")))
                                PgConnection eq_refl eq_refl eq_refl eq_refl)) Hdup)).
Defined.

(** ** The batches of [save_to_database] *)

Local Opaque Main.batch_size.

Lemma batches_region {A : Type} (values : list A) m a :
  List.concat (map (fun i => Main.slice i (i + Main.batch_size) values)
                   (map (fun k => k * Main.batch_size) (seq a m)))
  = firstn (m * Main.batch_size) (skipn (a * Main.batch_size) values).
Proof.
  revert a. induction m as [|m IH]; intros a; [reflexivity |].
  change (seq a (S m)) with (a :: seq (S a) m). rewrite !map_cons, concat_cons.
  rewrite IH, slice_batch.
  change (S m * Main.batch_size) with (Main.batch_size + m * Main.batch_size).
  rewrite <- take_take_drop. f_equal. rewrite drop_drop. f_equal. f_equal. simpl. lia.
Qed.

Lemma last_batch_starts_inside n k :
  k < (n + Main.batch_size - 1) / Main.batch_size -> k * Main.batch_size < n.
Proof.
  pose proof batch_size_pos as HB. intros Hk.
  pose proof (Nat.div_mod_eq (n + Main.batch_size - 1) Main.batch_size).
  pose proof (Nat.mod_upper_bound (n + Main.batch_size - 1) Main.batch_size).
  nia.
Qed.

Lemma batches_lookup {A : Type} (values : list A) k b :
  batches values !! k = Some b ->
  k < (List.length values + Main.batch_size - 1) / Main.batch_size
  /\ b = firstn Main.batch_size (skipn (k * Main.batch_size) values).
Proof.
  unfold batches, Main.range_step. rewrite !list_lookup_fmap.
  destruct (seq 0 _ !! k) as [j|] eqn:E; [|discriminate]. simpl. intros [= <-].
  apply lookup_seq in E as [-> Hk]. simpl. split; [exact Hk |]. apply slice_batch.
Qed.

(** X5.  The batches [save_to_database] cuts the rows into are a partition
    of the rows in order: put one behind the other they give the rows
    back.  There are as many batches as the number of rows divided by
    1000, rounded up; no batch is empty, none has more than 1000 rows, and
    every batch but the last has exactly 1000. *)
Theorem batches_partition {A : Type} (values : list A) :
  List.concat (batches values) = values
  /\ List.length (batches values)
     = (List.length values + Main.batch_size - 1) / Main.batch_size
  /\ (forall k b, batches values !! k = Some b ->
        0 < List.length b <= Main.batch_size)
  /\ (forall k b, batches values !! k = Some b ->
        S k < List.length (batches values) -> List.length b = Main.batch_size).
Proof.
  pose proof batch_size_pos as HB.
  assert (Hlen : List.length (batches values)
                 = (List.length values + Main.batch_size - 1) / Main.batch_size).
  { unfold batches, Main.range_step. now rewrite !length_map, length_seq. }
  split; [|split; [exact Hlen | split]].
  - unfold batches, Main.range_step. rewrite batches_region. apply range_step_covers.
  - intros k b Hb. apply batches_lookup in Hb as [Hk ->].
    apply last_batch_starts_inside in Hk. rewrite length_take, length_drop. lia.
  - intros k b Hb Hnext. apply batches_lookup in Hb as [_ ->].
    rewrite Hlen in Hnext. apply last_batch_starts_inside in Hnext.
    rewrite length_take, length_drop. simpl in Hnext. lia.
Qed.

Local Transparent Main.batch_size.

(** ** A frame without rows *)



(** ** The requests of a run *)

Lemma http_requests_app t1 t2 : http_requests (t1 ++ t2) = http_requests t1 ++ http_requests t2.
Proof.
  induction t1 as [|e t1 IH]; [reflexivity |].
  destruct e; simpl; now rewrite IH.
Qed.

Lemma batch_events_no_requests table cols ev :
  List.Forall (is_batch_event table cols) ev -> http_requests ev = [].
Proof.
  induction 1 as [|e ev He _ IH]; [reflexivity |].
  destruct e; simpl in He |- *; try tauto; exact IH.
Qed.

Lemma rollback_and_fail_requests {E : Type} env m (self : E) db before :
  http_requests (trace_of (rollback_and_fail env m self db before)) = http_requests before.
Proof.
  rewrite rollback_and_fail_trace, http_requests_app.
  destruct (rollback_ok env); simpl; apply app_nil_r.
Qed.

Lemma de_fetch_requests env self db :
  http_requests (trace_of (DataExtractor.fetch_csv env self db))
  = [(DataExtractor.csv_url self, Some 30)]
  /\ DataExtractor.csv_url (self_of (DataExtractor.fetch_csv env self db))
     = DataExtractor.csv_url self.
Proof.
  unfold DataExtractor.fetch_csv.
  destruct (http_get env _ _) as [e|status body]; [split; reflexivity |].
  destruct (raises_for_status status); [split; reflexivity |].
  destruct (read_csv env body); split; reflexivity.
Qed.

Lemma main_fetch_requests env self db :
  http_requests (trace_of (Main.fetch_csv_data env self db)) = [(Main.csv_url self, None)].
Proof.
  unfold Main.fetch_csv_data.
  destruct (http_get env _ _) as [e|status body]; [reflexivity |].
  destruct (raises_for_status status); [reflexivity |].
  destruct (read_csv env body); reflexivity.
Qed.

Lemma de_create_requests env self db :
  http_requests (trace_of (DataExtractor.create_table env self db)) = [].
Proof.
  unfold DataExtractor.create_table.
  destruct (DataExtractor.conn self); [|reflexivity].
  destruct (DataExtractor.df self); [|reflexivity]. cbv zeta.
  destruct (exec_create env _ _); [reflexivity | apply rollback_and_fail_requests].
Qed.

Lemma de_load_requests env self db :
  http_requests (trace_of (DataExtractor.bulk_insert env self db)) = [].
Proof.
  unfold DataExtractor.bulk_insert.
  destruct (DataExtractor.conn self); [|reflexivity].
  destruct (DataExtractor.df self); [|reflexivity]. cbv zeta.
  destruct (exec_load env _ _ _ _); [reflexivity | apply rollback_and_fail_requests].
Qed.

Lemma main_create_requests env table self db :
  http_requests (trace_of (Main.create_table_if_not_exists env table self db)) = [].
Proof.
  unfold Main.create_table_if_not_exists.
  destruct (Main.db_connection self); [|reflexivity].
  destruct (Main.df self) as [d|]; [|reflexivity].
  destruct (Main.columns_definitions d); [|apply rollback_and_fail_requests]. cbv zeta.
  destruct (exec_create env _ _); [reflexivity | apply rollback_and_fail_requests].
Qed.

Lemma main_load_requests env table self db :
  http_requests (trace_of (Main.save_to_database env table self db)) = [].
Proof.
  unfold Main.save_to_database.
  destruct (Main.db_connection self); [|reflexivity].
  destruct (Main.df self) as [d|]; [|reflexivity]. cbv zeta.
  pose proof (insert_batches_events env (RawName table)
                (columns (set_columns (map main_sanitize_name (columns d)) d))
                (rows (set_columns (map main_sanitize_name (columns d)) d))
                (Main.range_step
                   (List.length (rows (set_columns (map main_sanitize_name (columns d)) d)))
                   Main.batch_size) db) as H.
  destruct (Main.insert_batches _ _ _ _ _ _) as [[ok db'] ev]. simpl in H.
  apply batch_events_no_requests in H.
  destruct ok.
  - unfold trace_of. simpl. rewrite http_requests_app, H. reflexivity.
  - rewrite rollback_and_fail_requests. simpl. rewrite http_requests_app, H. reflexivity.
Qed.

Lemma close_requests_de self : http_requests (DataExtractor.close self) = [].
Proof. unfold DataExtractor.close. now destruct (DataExtractor.conn self). Qed.

Lemma close_requests_main self : http_requests (Main.close_connection self) = [].
Proof. unfold Main.close_connection. now destruct (Main.db_connection self). Qed.

Lemma de_main_try_requests env self db :
  http_requests (snd (DataExtractor.main_try env self db))
  = [(DataExtractor.csv_url self, Some 30)].
Proof.
  unfold DataExtractor.main_try.
  pose proof (proj1 (de_fetch_requests env self db)) as H1.
  destruct (DataExtractor.fetch_csv env self db) as [[[r1 s1] db1] ev1].
  unfold trace_of in H1; simpl in H1.
  destruct r1 as [[|]|]; try exact H1.
  pose proof (de_create_requests env s1 db1) as H2.
  destruct (DataExtractor.create_table env s1 db1) as [[[r2 s2] db2] ev2].
  unfold trace_of in H2; simpl in H2.
  destruct r2 as [[|]|]; simpl; rewrite ?http_requests_app, ?H1, ?H2; try reflexivity.
  pose proof (de_load_requests env s2 db2) as H3.
  destruct (DataExtractor.bulk_insert env s2 db2) as [[[r3 s3] db3] ev3].
  unfold trace_of in H3; simpl in H3.
  destruct r3 as [[|]|]; simpl; rewrite ?http_requests_app, ?H1, ?H2, ?H3; reflexivity.
Qed.

Lemma main_main_try_requests env table self db :
  http_requests (snd (Main.main_try env table self db)) = [(Main.csv_url self, None)].
Proof.
  unfold Main.main_try.
  pose proof (main_fetch_requests env self db) as H1.
  destruct (Main.fetch_csv_data env self db) as [[[r1 s1] db1] ev1].
  unfold trace_of in H1; simpl in H1.
  destruct r1 as [[|]|]; simpl; rewrite ?http_requests_app, ?H1; try reflexivity.
  pose proof (main_create_requests env table s1 db1) as H2.
  destruct (Main.create_table_if_not_exists env table s1 db1) as [[[r2 s2] db2] ev2].
  unfold trace_of in H2; simpl in H2.
  destruct r2 as [[|]|]; simpl; rewrite ?http_requests_app, ?H1, ?H2; try reflexivity.
  pose proof (main_load_requests env table s2 db2) as H3.
  destruct (Main.save_to_database env table s2 db2) as [[[r3 s3] db3] ev3].
  unfold trace_of in H3; simpl in H3.
  destruct r3 as [[|]|]; simpl; rewrite ?http_requests_app, ?H1, ?H2, ?H3; reflexivity.
Qed.

(** X7.  A run of [main] asks for the file at most once and never asks
    again after a failure: when the connection to the store is made the
    trace holds exactly one request, to the configured URL (with the
    time-out of 30 seconds in [data_extractor.py], without one in
    [main.py]); when the connection cannot be made the run sends no request
    and returns the store untouched.  [data_extractor.py] takes the URL from
    [CSV_URL] when that is set, also to the empty string, and the
    Our-World-in-Data address otherwise. *)
Theorem one_request_per_run (env : Env) (db : Db) :
  (forall url table,
     http_requests (snd (DataExtractor.main env url table db))
     = (if connect_ok env then [(url, Some 30)] else [])
     /\ (connect_ok env = false -> fst (DataExtractor.main env url table db) = db))
  /\ (forall environ,
        http_requests (snd (DataExtractor.main_in environ env db))
        = (if connect_ok env
           then [(default DataExtractor.default_csv_url (environ !! "CSV_URL"), Some 30)]
           else []))
  /\ (forall url config table,
        http_requests (snd (Main.main env url config table db))
        = (if connect_ok env then [(url, None)] else [])
        /\ (connect_ok env = false -> fst (Main.main env url config table db) = db)).
Proof.
  assert (HD : forall url table,
            http_requests (snd (DataExtractor.main env url table db))
            = (if connect_ok env then [(url, Some 30)] else [])
            /\ (connect_ok env = false -> fst (DataExtractor.main env url table db) = db)).
  { intros url table. unfold DataExtractor.main, DataExtractor.connect.
    destruct (connect_ok env); [|split; reflexivity].
    pose proof (de_main_try_requests env
                  (DataExtractor.set_conn PgConnection (DataExtractor.init url table)) db) as H.
    destruct (DataExtractor.main_try env _ db) as [[[raised s] db'] ev]. simpl in H |- *.
    split; [|discriminate].
    rewrite !http_requests_app, H, close_requests_de. now destruct raised. }
  split; [exact HD |]. split.
  - intros environ. unfold DataExtractor.main_in. apply HD.
  - intros url config table. unfold Main.main, Main.connect_to_database.
    destruct (connect_ok env); [|split; reflexivity].
    pose proof (main_main_try_requests env table
                  (Main.set_conn PgConnection (Main.init url config)) db) as H.
    destruct (Main.main_try env table _ db) as [[[raised s] db'] ev]. simpl in H |- *.
    split; [|discriminate].
    rewrite !http_requests_app, H, close_requests_main. now destruct raised.
Qed.

(** ** The configuration of the connection *)

(** X8.  [_load_env_config] gives either the one entry [dsn], exactly when
    [DATABASE_URL] is set and not empty (the five [DB_] variables are then
    not looked at), or the five parameters host, port, database, user and
    password and nothing else.  Each parameter is the value of its variable
    when the variable is set, also when it is set to the empty string, and
    its default otherwise; a [DATABASE_URL] that is set to the empty string
    counts as not set. *)
Theorem env_config_shape (environ : gmap string string) :
  let config := DataExtractor._load_env_config environ in
  (forall url, environ !! "DATABASE_URL" = Some url -> url <> "" ->
     config = {[ "dsn" := url ]})
  /\ (environ !! "DATABASE_URL" = None \/ environ !! "DATABASE_URL" = Some "" ->
      config !! "dsn" = None
      /\ size config = 5
      /\ (forall key var fallback, In (key, var, fallback) connection_parameters ->
            config !! key = Some (default fallback (environ !! var))))
  /\ (is_Some (config !! "dsn")
      <-> exists url, environ !! "DATABASE_URL" = Some url /\ url <> "").
Proof.
  cbv zeta.
  assert (Hdefaults :
            forall config : gmap string string,
              config = {[ "host" := getenv environ "DB_HOST" "localhost";
                          "port" := getenv environ "DB_PORT" "5432";
                          "database" := getenv environ "DB_NAME" "postgres";
                          "user" := getenv environ "DB_USER" "postgres";
                          "password" := getenv environ "DB_PASSWORD" "" ]} ->
              config !! "dsn" = None
              /\ size config = 5
              /\ (forall key var fallback, In (key, var, fallback) connection_parameters ->
                    config !! key = Some (default fallback (environ !! var)))).
  { intros config ->. split; [reflexivity |]. split; [reflexivity |].
    intros key var fallback Hin. unfold connection_parameters in Hin. simpl in Hin.
    destruct Hin as [[= <- <- <-]|[[= <- <- <-]|[[= <- <- <-]|[[= <- <- <-]|[[= <- <- <-]|[]]]]]];
      reflexivity. }
  unfold DataExtractor._load_env_config. cbv zeta.
  destruct (environ !! "DATABASE_URL") as [url|] eqn:E.
  - unfold truthy. destruct (String.eqb_spec url "") as [->|Hne]; simpl.
    + split; [intros url [= <-] H; now contradiction H |].
      split; [intros _; now apply Hdefaults |].
      destruct (Hdefaults _ eq_refl) as [-> _].
      split; [intros [x Hx]; discriminate Hx |].
      intros (url & [= <-] & H). now contradiction H.
    + split; [now intros url' [= <-] _ |].
      split; [intros [H|[= H]]; [discriminate H | now contradiction Hne] |].
      split; [intros _; eauto |]. intros _. rewrite lookup_singleton_eq. eauto.
  - split; [discriminate |].
    split; [intros _; now apply Hdefaults |].
    destruct (Hdefaults _ eq_refl) as [-> _].
    split; [intros [x Hx]; discriminate Hx |].
    intros (url & H & _). discriminate H.
Qed.

(** ** Edges of the two sanitisers *)

Lemma lstrip_empty s : PyStr.lstrip s = "" <-> PyStr.all_chars PyStr.isspace s = true.
Proof.
  induction s as [|c s IH]; simpl; [tauto |].
  destruct (PyStr.isspace c); simpl; [exact IH |]. split; discriminate.
Qed.








Lemma map_chars_ext_on (p : ascii -> bool) (f g : ascii -> ascii) (s : string) :
  (forall c, p c = true -> f c = g c) ->
  PyStr.all_chars p s = true -> PyStr.map_chars f s = PyStr.map_chars g s.
Proof.
  intros Hfg. induction s as [|c s IH]; simpl; [reflexivity |].
  intros [Hc Hs]%andb_prop. now rewrite (Hfg c Hc), IH.
Qed.



(** ** Where the two files agree *)

Lemma plain_char_same c :
  plain_char c = true ->
  keep_or_underscore (PyStr.lower_char c)
  = PyStr.lower_char (if Ascii.eqb c " " then "_"%char else c).
Proof.
  intros H.
  assert (G : implb (plain_char c)
                (Ascii.eqb (keep_or_underscore (PyStr.lower_char c))
                           (PyStr.lower_char (if Ascii.eqb c " " then "_"%char else c)))
              = true)
    by (clear H; by_cases_on_char c).
  rewrite H in G. now apply Ascii.eqb_eq.
Qed.

Lemma plain_name_same col : plain_name col = true -> sanitize_name col = main_sanitize_name col.
Proof.
  unfold plain_name. intros [Hchars Hstrip%String.eqb_eq]%andb_prop.
  unfold sanitize_name, main_sanitize_name, PyStr.lower, PyStr.replace_char.
  rewrite Hstrip, !map_chars_map_chars.
  apply (map_chars_ext_on plain_char); [apply plain_char_same | exact Hchars].
Qed.

Lemma column_defs_eq (l1 l2 : list ColumnDef) :
  map cd_name l1 = map cd_name l2 -> map cd_type l1 = map cd_type l2 -> l1 = l2.
Proof.
  revert l2. induction l1 as [|[n1 t1] l1 IH]; intros [|[n2 t2] l2]; simpl;
    try discriminate; [reflexivity |].
  intros [= -> Hn] [= -> Ht]. f_equal. now apply IH.
Qed.

(** X10.  On a frame whose labels are distinct and plain (ASCII letters,
    digits, underscores, blanks inside, no white space at the ends) the two
    files agree: both sanitisers give the same names, and
    [create_table_if_not_exists] of [main.py] builds the very column
    definitions that [create_table] of [data_extractor.py] builds. *)
Theorem files_agree_on_plain_names (d : DataFrame) :
  List.Forall (fun n => plain_name n = true) (columns d) ->
  List.NoDup (columns d) ->
  map sanitize_name (columns d) = map main_sanitize_name (columns d)
  /\ Main.columns_definitions d
     = Some (DataExtractor.cols_defs (DataExtractor._sanitize_columns d)).
Proof.
  intros Hplain Hnd.
  assert (Hnames : map sanitize_name (columns d) = map main_sanitize_name (columns d)).
  { apply map_ext_in. intros n Hin. apply plain_name_same.
    rewrite List.Forall_forall in Hplain. now apply Hplain. }
  split; [exact Hnames |].
  apply columns_definitions_is_Some in Hnd as [defs Hdefs]. rewrite Hdefs. f_equal.
  apply column_defs_eq.
  - rewrite (main_definitions_names d defs Hdefs), cols_defs_names. symmetry. exact Hnames.
  - rewrite (main_definitions_types d defs Hdefs), cols_defs_types.
    unfold DataExtractor._sanitize_columns. simpl columns. rewrite length_map.
    apply map_ext. intros j. now rewrite column_kinds_set_columns.
Qed.

Lemma files_agree_on_plain_names_witness :
  List.Forall (fun n => plain_name n = true) (columns owid_frame)
  /\ List.NoDup (columns owid_frame)
  /\ Main.columns_definitions owid_frame
     = Some (DataExtractor.cols_defs (DataExtractor._sanitize_columns owid_frame)).
Proof.
  assert (Hplain : List.Forall (fun n => plain_name n = true) (columns owid_frame))
    by (repeat constructor).
  assert (Hnd : List.NoDup (columns owid_frame))
    by (apply NoDup_ListNoDup, (bool_decide_unpack _); vm_compute; exact I).
  split; [exact Hplain |]. split; [exact Hnd |].
  exact (proj2 (files_agree_on_plain_names owid_frame Hplain Hnd)).
Defined.

(** ** A run in which everything works *)


















(** * The application *)




Lemma fits_iff n : App.fits n = true <-> (0 <= n <= App.int8_max)%Z.
Proof. unfold App.fits. rewrite andb_true_iff, !Z.leb_le. tauto. Qed.

(** X13.  The status of [get_birth_rates].  The answer is 200 exactly when
    the connection is made, the table exists, [limit] is at least 1,
    [page] is at least 1, and [limit] and the offset [(page - 1) * limit]
    fit the store's 64-bit counts; in every other case it is 500.  So
    [limit=0] and [page=0] are answered with 500.  [page] and [limit] are
    1 and 100 when the argument is missing or is not an integer. *)
Theorem birth_rates_status (st : App.Store) (args : gmap string App.Arg) :
  let page := App.args_get_int args "page" 1 in
  let limit := App.args_get_int args "limit" 100 in
  let status := fst (fst (App.get_birth_rates st args)) in
  (status = 200%Z \/ status = 500%Z)
  /\ (status = 200%Z
      <-> App.accepts_connection st = true
          /\ is_Some (App.table st)
          /\ (1 <= limit <= App.int8_max)%Z
          /\ (1 <= page)%Z
          /\ ((page - 1) * limit <= App.int8_max)%Z)
  /\ (args !! "page" = None -> page = 1%Z)
  /\ (args !! "limit" = None -> limit = 100%Z)
  /\ (forall raw, args !! "page" = Some (App.TextArg raw) -> page = 1%Z)
  /\ (forall raw, args !! "limit" = Some (App.TextArg raw) -> limit = 100%Z).
Proof.
  cbv zeta.
  split; [|split; [|unfold App.args_get_int; repeat split; intros; simplify_option_eq;
                    repeat match goal with H : _ !! _ = _ |- _ => rewrite H end;
                    reflexivity]].
  - unfold App.get_birth_rates. cbv zeta.
    destruct (App.accepts_connection st); [|now right].
    destruct (App.select_page st _ _); [|now right].
    destruct (App.select_count st); [|now right].
    destruct (_ =? 0)%Z; [now right | now left].
  - set (page := App.args_get_int args "page" 1).
    set (limit := App.args_get_int args "limit" 100).
    unfold App.get_birth_rates. cbv zeta. fold page. fold limit.
    unfold App.select_page, App.select_count.
    destruct (App.accepts_connection st);
      [|simpl; split; [discriminate | intros [H _]; discriminate H]].
    destruct (App.table st) as [rows|];
      [|simpl; split; [discriminate | intros (_ & [x Hx] & _); discriminate Hx]].
    destruct (App.fits limit) eqn:Hl; simpl.
    2:{ split; [discriminate |]. intros (_ & _ & H1 & _).
        assert (App.fits limit = true) by (apply fits_iff; lia). congruence. }
    apply fits_iff in Hl.
    destruct (App.fits ((page - 1) * limit)) eqn:Ho; simpl.
    2:{ split; [discriminate |]. intros (_ & _ & H1 & H2 & H3).
        assert (App.fits ((page - 1) * limit) = true) by (apply fits_iff; nia).
        congruence. }
    apply fits_iff in Ho.
    destruct (Z.eqb_spec limit 0) as [E|N]; simpl.
    + split; [discriminate |]. intros (_ & _ & H1 & _). lia.
    + split; [|reflexivity]. intros _.
      split; [reflexivity |]. split; [eauto |]. split; [lia |]. split; [nia | lia].
Qed.





(** ** One country *)

Lemma has_code_iff c r : App.has_code c r = true <-> App.code r = Some c.
Proof.
  unfold App.has_code. destruct (App.code r) as [c'|]; [|split; discriminate].
  rewrite String.eqb_eq. split; congruence.
Qed.

(** X15.  [get_country_data] on a store that answers.  The status is 404
    exactly when no row of the table carries the code, and 200 otherwise.
    With 200 the body repeats the code, [data] holds the rows that carry
    the code, each once and no other, in the order the store gives them for
    the year; [data_points] is their number; [country] is the entity of the
    first of them and [year_range] is made of the year of the first and the
    year of the last. *)
Theorem country_lookup (st : App.Store) (rows : list App.Row) (c : string) :
  App.accepts_connection st = true ->
  App.table st = Some rows ->
  App.by_year st (List.filter (App.has_code c) rows) ≡ₚ List.filter (App.has_code c) rows ->
  let r := fst (App.get_country_data st c) in
  (fst r = 404%Z <-> forall row, In row rows -> App.code row <> Some c)
  /\ (fst r = 200%Z <-> exists row, In row rows /\ App.code row = Some c)
  /\ (fst r = 200%Z ->
      exists first,
        head (App.data_of r) = Some first
        /\ snd r
           = App.CountryBody (App.entity first) c
               (App.fmt (App.year first) +:+ "-"
                +:+ App.fmt (App.year (List.last (App.data_of r) first)))
               (List.length (List.filter (App.has_code c) rows))
               (App.data_of r)
        /\ App.data_of r ≡ₚ List.filter (App.has_code c) rows
        /\ List.Forall (fun row => App.code row = Some c) (App.data_of r)).
Proof.
  intros Hconn Htable Hperm. cbv zeta.
  unfold App.get_country_data, App.select_country. rewrite Hconn, Htable.
  set (matching := List.filter (App.has_code c) rows) in *.
  assert (Hnone : matching = [] <-> forall row, In row rows -> App.code row <> Some c).
  { split.
    - intros E row Hin Hc.
      assert (Hm : In row matching)
        by (apply filter_In; split; [exact Hin | now apply has_code_iff]).
      rewrite E in Hm. exact Hm.
    - intros H. destruct matching as [|row rest] eqn:E; [reflexivity |].
      assert (Hm : In row matching) by (rewrite E; now left).
      apply filter_In in Hm as [Hin Hc%has_code_iff]. now destruct (H row Hin). }
  destruct (App.by_year st matching) as [|first rest] eqn:E.
  - apply Permutation_nil in Hperm. simpl fst.
    split; [split; [intros _; exact (proj1 Hnone Hperm) | reflexivity] |].
    split; [|discriminate]. split; [discriminate |].
    intros (row & Hin & Hc). now destruct (proj1 Hnone Hperm row Hin).
  - cbv zeta. simpl fst. simpl snd.
    assert (Hsome : exists row, In row rows /\ App.code row = Some c).
    { exists first.
      assert (Hm : In first matching)
        by (apply (Permutation_in _ Hperm); now left).
      apply filter_In in Hm as [Hin Hc%has_code_iff]. auto. }
    split; [split; [discriminate |] |].
    { intros H. destruct Hsome as (row & Hin & Hc). now destruct (H row Hin). }
    split; [split; [intros _; exact Hsome | reflexivity] |].
    intros _. exists first. unfold App.data_of. simpl snd.
    split; [reflexivity |]. split.
    + f_equal. exact (Permutation_length Hperm).
    + split; [exact Hperm |].
      apply List.Forall_forall. intros row Hin.
      apply (Permutation_in _ Hperm) in Hin.
      apply filter_In in Hin as [_ Hc]. now apply has_code_iff.
Qed.

Lemma country_lookup_witness :
  App.accepts_connection sample_store = true
  /\ App.table sample_store = Some sample_rows
  /\ fst (fst (App.get_country_data sample_store "CHL")) = 200%Z
  /\ fst (fst (App.get_country_data sample_store "XXX")) = 404%Z.
Proof.
  split; [reflexivity |]. split; [reflexivity |]. split.
  - apply (proj1 (proj2 (country_lookup sample_store sample_rows "CHL" eq_refl eq_refl
                           (Permutation_refl _)))).
    exists (App.mkRow (Some "Chile") (Some "CHL") (Some "2000") ["15.9"]).
    split; [now left | reflexivity].
  - apply (proj1 (country_lookup sample_store sample_rows "XXX" eq_refl eq_refl
                    (Permutation_refl _))).
    intros row [<-|[<-|[<-|[]]]]; discriminate.
Defined.

(** ** Connections *)

(** X16.  No view leaks a connection and none asks for more than one:
    [get_birth_rates], [get_country_data] and [health_check] each call
    [connect] once, first of all; when the connection is made they close
    it, once and as the last thing they do, whatever the queries answer;
    when it is not made nothing is closed.  A connection that cannot be made
    leaves the first two views as an exception, before any query;
    [health_check] catches it and answers 500 itself, and answers 200
    exactly when the connection is made.  The views connect with the
    arguments [_load_env_config] of [data_extractor.py] gives. *)
Theorem views_release_the_connection (st : App.Store) (args : gmap string App.Arg)
    (c : string) (environ : gmap string string) :
  let released (run : App.Response * list App.Event) :=
    head (snd run) = Some App.Connect
    /\ List.length (List.filter App.is_connect (snd run)) = 1
    /\ List.length (List.filter App.is_close (snd run))
       = (if App.accepts_connection st then 1 else 0)
    /\ (App.accepts_connection st = true -> List.last (snd run) App.Connect = App.Close)
    /\ (App.accepts_connection st = false -> snd run = [App.Connect]) in
  released (App.get_birth_rates st args)
  /\ released (App.get_country_data st c)
  /\ released (App.health_check st)
  /\ (App.accepts_connection st = false ->
      fst (App.get_birth_rates st args) = (500%Z, App.UnhandledBody)
      /\ fst (App.get_country_data st c) = (500%Z, App.UnhandledBody)
      /\ fst (App.health_check st) = (500%Z, App.HealthBody false))
  /\ (fst (fst (App.health_check st)) = 200%Z <-> App.accepts_connection st = true)
  /\ App.get_db_connection environ = DataExtractor._load_env_config environ.
Proof.
  cbv zeta. split; [|split; [|split; [|split; [|split]]]].
  - unfold App.get_birth_rates. cbv zeta.
    destruct (App.accepts_connection st); [|repeat split; auto; discriminate].
    destruct (App.select_page st _ _); [|repeat split; auto; discriminate].
    destruct (App.select_count st); [|repeat split; auto; discriminate].
    destruct (_ =? 0)%Z; repeat split; auto; discriminate.
  - unfold App.get_country_data.
    destruct (App.accepts_connection st); [|repeat split; auto; discriminate].
    destruct (App.select_country st c) as [[|first rest]|];
      repeat split; auto; discriminate.
  - unfold App.health_check.
    destruct (App.accepts_connection st); repeat split; auto; discriminate.
  - intros H. unfold App.get_birth_rates, App.get_country_data, App.health_check.
    cbv zeta. rewrite H. repeat split.
  - unfold App.health_check. destruct (App.accepts_connection st); simpl; split;
      congruence.
  - unfold App.get_db_connection, DataExtractor._load_env_config. cbv zeta.
    destruct (environ !! "DATABASE_URL") as [url|]; [|reflexivity].
    destruct (truthy url); reflexivity.
Qed.
